(** * The LangGraph chatbot: calculator tool, thread store and title rule

    A shallow embedding of [langgraph_backend3.py] (the calculator tool, the
    schema migration and the thread functions on the SQLite checkpoint
    table) and of the part of [streamlit_frontend5.py] that derives a thread
    title from the user's input, followed by the properties proved of them.

    Python floats are IEEE binary64 numbers, modelled by Rocq's primitive
    floats; Python dicts with string keys are [gmap string _]; the two
    return shapes [(bool, str)] are pairs; code under [try]/[except] runs in
    a state-and-exception monad over the database, and the handler turns the
    exception into the value the source returns. *)

From Stdlib Require Import Floats ZArith String Ascii List Bool Lia.
From stdpp Require Import gmap strings list pretty.

Open Scope string_scope.

(** ** Python values, exceptions and strings *)

Module Py.

(** The values that reach the thread functions as [thread_id]: [None], an
    [int], a [str], or the [uuid.UUID] object that the frontend's
    [generate_thread_id] returns (carried as its text). *)
Inductive pyval : Type :=
| PNone
| PInt (z : Z)
| PStr (s : string)
| PUuid (text : string).

(** [bool(v)], as tested by [if thread_id:]. *)
Definition truthy (v : pyval) : bool :=
  match v with
  | PNone => false
  | PInt z => negb (z =? 0)%Z
  | PStr s => negb (String.eqb s "")
  | PUuid _ => true
  end.

(** [str(v)], also what an f-string field [{v}] prints. *)
Definition str (v : pyval) : string :=
  match v with
  | PNone => "None"
  | PInt z => pretty z
  | PStr s => s
  | PUuid text => text
  end.

Inductive exn_class : Type :=
| ZeroDivisionError
| OverflowError
| OperationalError
| ProgrammingError.

Record exn : Type := Exn { exn_kind : exn_class; exn_msg : string }.

(** [str(e)] of an exception is its message. *)
Definition str_exn (e : exn) : string := exn_msg e.

(** The outcome of running a Python expression or block. *)
Inductive res (A : Type) : Type :=
| Ok (a : A)
| Raise (e : exn).
Arguments Ok {A} a.
Arguments Raise {A} e.

Definition res_bind {A B : Type} (r : res A) (k : A -> res B) : res B :=
  match r with
  | Ok a => k a
  | Raise e => Raise e
  end.

(** A [string] stands for a Python [str], one [ascii] for each of its
    characters. [s[:n]]. *)
Fixpoint slice_to (n : nat) (s : string) : string :=
  match n, s with
  | O, _ => ""
  | S _, EmptyString => ""
  | S n', String c s' => String c (slice_to n' s')
  end.

(** [s[n:]]. *)
Fixpoint slice_from (n : nat) (s : string) : string :=
  match n, s with
  | O, _ => s
  | S _, EmptyString => ""
  | S n', String _ s' => slice_from n' s'
  end.

(** [x / y] on floats: CPython raises on a zero divisor (of either sign)
    and otherwise divides as IEEE 754 does; [+], [-] and [*] never
    raise. *)
Definition float_truediv (x y : float) : res float :=
  if PrimFloat.eqb y 0%float
  then Raise (Exn ZeroDivisionError "float division by zero")
  else Ok (x / y)%float.

End Py.
Import Py.

(** ** The calculator tool (backend, section 2) *)

Module Calculator.

(** A value of the returned dict: a number or a text. *)
Inductive value : Type :=
| VNum (f : float)
| VStr (s : string).

(** The body of the [try] block of [calculator]. *)
Definition calculator_try (first_num second_num : float) (operation : string)
  : res (gmap string value) :=
  let answer (result : float) : res (gmap string value) :=
    Ok {[ "first_num" := VNum first_num;
          "second_num" := VNum second_num;
          "operation" := VStr operation;
          "result" := VNum result ]} in
  if String.eqb operation "add" then
    answer (first_num + second_num)%float
  else if String.eqb operation "sub" then
    answer (first_num - second_num)%float
  else if String.eqb operation "mul" then
    answer (first_num * second_num)%float
  else if String.eqb operation "div" then
    if PrimFloat.eqb second_num 0%float then
      Ok {[ "error" := VStr "Division by zero is not allowed" ]}
    else
      res_bind (float_truediv first_num second_num) answer
  else
    Ok {[ "error" := VStr ("Unsupported operation '" +:+ operation +:+ "'") ]}.

(** [calculator]: the [try] block, with [except Exception as e]. *)
Definition calculator (first_num second_num : float) (operation : string)
  : gmap string value :=
  match calculator_try first_num second_num operation with
  | Ok d => d
  | Raise e => {[ "error" := VStr ("Calculator failed: " +:+ str_exn e) ]}
  end.

(** The four operations the docstring lists, with their tags and the
    arithmetic each stands for. *)
Inductive supported : Type := Add | Sub | Mul | Div.

Definition tag (op : supported) : string :=
  match op with
  | Add => "add"
  | Sub => "sub"
  | Mul => "mul"
  | Div => "div"
  end.

Definition arith (op : supported) (a b : float) : float :=
  match op with
  | Add => a + b
  | Sub => a - b
  | Mul => a * b
  | Div => a / b
  end%float.

(** The IEEE 754 binary64 operation (rounded to nearest, ties to even)
    that each one is, on the specification of floats. *)
Definition ieee (op : supported) : spec_float -> spec_float -> spec_float :=
  match op with
  | Add => SF64add
  | Sub => SF64sub
  | Mul => SF64mul
  | Div => SF64div
  end.

Definition is_supported (operation : string) : Prop :=
  exists op, operation = tag op.

End Calculator.
Import Calculator.

(** ** The checkpoint table and the SQL statements run on it *)

Module Sqlite.

(** The statements below are the ones the source hands to [cursor.execute],
    each with the meaning SQLite gives it on the one table the source
    touches; only what the source reads back is kept of a row. *)

(** The message classes the frontend tells apart. *)
Inductive role : Type := Human | AI | Tool.

(** What a message list may hold: a [BaseMessage] object (it has the
    attribute [content]), a dict, or a plain [str]. *)
Inductive message : Type :=
| MObj (kind : role) (content : string)
| MDict (d : gmap string string)
| MStr (s : string).

(** One row of [checkpoints]: a step of a thread's execution, with the
    added [thread_title] cell ([None] is SQL NULL) and the [messages]
    channel of the state saved in the row. Rows are kept in the order
    of their [checkpoint_id], oldest first. *)
Record row : Type := Row {
  r_thread_id : string;
  r_thread_title : option string;
  r_checkpoint : list message
}.

(** The table [checkpoints]: its column names and its rows. *)
Record table : Type := Table {
  columns : list string;
  rows : list row
}.

(** The database file: [None] while [checkpoints] has not been created. *)
Definition db : Type := option table.

Definition table_rows (s : db) : list row :=
  match s with
  | Some t => rows t
  | None => []
  end.

(** Code that reads and writes the database and may raise. *)
Definition M (A : Type) : Type := db -> db * res A.

Definition ret {A : Type} (a : A) : M A := fun s => (s, Ok a).

Definition raise {A : Type} (e : exn) : M A := fun s => (s, Raise e).

Definition bind {A B : Type} (m : M A) (k : A -> M B) : M B :=
  fun s =>
    match m s with
    | (s', Ok a) => k a s'
    | (s', Raise e) => (s', Raise e)
    end.

(** [try: body except Exception as e: handler]. *)
Definition try_except {A : Type} (body : M A) (handler : exn -> M A) : M A :=
  fun s =>
    match body s with
    | (s', Ok a) => (s', Ok a)
    | (s', Raise e) => handler e s'
    end.

Definition get : M db := fun s => (s, Ok s).
Definition put (s' : db) : M unit := fun _ => (s', Ok tt).

Notation "x <- m ;; k" := (bind m (fun x => k))
  (at level 100, m at next level, right associativity).
Notation "m ;;; k" := (bind m (fun _ => k))
  (at level 100, right associativity).

(** [for x in l: acc.append(body(x))]. *)
Fixpoint for_each {A B : Type} (l : list A) (body : A -> M B) : M (list B) :=
  match l with
  | [] => ret []
  | x :: l' => y <- body x ;; ys <- for_each l' body ;; ret (y :: ys)
  end.

Definition no_such_table : exn :=
  Exn OperationalError "no such table: checkpoints".

Definition no_such_column (name : string) : exn :=
  Exn OperationalError ("no such column: " +:+ name).

(** A Python value bound to a [?]: [None] is NULL, an [int] an INTEGER
    (when it fits 64 bits), a [str] a TEXT; a [UUID] object has no
    adapter. [pos] is the place of the [?] in the statement. *)
Inductive sqlval : Type :=
| SqlNull
| SqlInteger (z : Z)
| SqlText (s : string).

Definition bind_param (pos : nat) (v : pyval) : res sqlval :=
  match v with
  | PNone => Ok SqlNull
  | PInt z =>
      if ((- 2 ^ 63 <=? z) && (z <? 2 ^ 63))%Z then Ok (SqlInteger z)
      else Raise (Exn OverflowError
                    "Python int too large to convert to SQLite INTEGER")
  | PStr s => Ok (SqlText s)
  | PUuid _ =>
      Raise (Exn ProgrammingError
               ("Error binding parameter " +:+ pretty pos
                +:+ ": type 'UUID' is not supported"))
  end.

(** [thread_id = ?] on the TEXT column [thread_id]: NULL equals nothing,
    an INTEGER is compared as its decimal text. *)
Definition thread_id_is (v : sqlval) (r : row) : bool :=
  match v with
  | SqlNull => false
  | SqlInteger z => String.eqb (r_thread_id r) (pretty z)
  | SqlText s => String.eqb (r_thread_id r) s
  end.

(** [SELECT name FROM sqlite_master WHERE type='table' AND
    name='checkpoints'], then [fetchone()]. *)
Definition select_table_checkpoints : M (option string) :=
  s <- get ;;
  ret (match s with
       | Some _ => Some "checkpoints"
       | None => None
       end).

(** [PRAGMA table_info(checkpoints)], then [col[1]] of [fetchall()]: the
    column names, none for a table that does not exist. *)
Definition pragma_table_info : M (list string) :=
  s <- get ;;
  ret (match s with
       | Some t => columns t
       | None => []
       end).

(** [ALTER TABLE checkpoints ADD COLUMN name type], for a [name] and a
    [type] that are a plain identifier and a plain type name, as at the
    call of the source. The new cell is NULL in every row. *)
Definition alter_table_add_column (name type : string) : M unit :=
  s <- get ;;
  match s with
  | None => raise no_such_table
  | Some t =>
      if existsb (String.eqb name) (columns t) then
        raise (Exn OperationalError ("duplicate column name: " +:+ name))
      else
        put (Some {| columns := (columns t ++ [name])%list;
                     rows :=
                       if String.eqb name "thread_title"
                       then map (fun r => {| r_thread_id := r_thread_id r;
                                             r_thread_title := None;
                                             r_checkpoint := r_checkpoint r |})
                                (rows t)
                       else rows t |})
  end.

Definition commit : M unit := ret tt.

(** The statements on [thread_title] compile only when the table and
    the column exist; the result is the table. *)
Definition prepare_thread_title : M table :=
  s <- get ;;
  match s with
  | None => raise no_such_table
  | Some t =>
      if existsb (String.eqb "thread_title") (columns t) then ret t
      else raise (no_such_column "thread_title")
  end.

(** [SELECT thread_title FROM checkpoints WHERE thread_id= ?] with a
    [str], then [fetchone()]: [None] when no row matches, else the
    1-tuple of the first matching row (its cell may be NULL). *)
Definition select_thread_title (thread_id : string)
  : M (option (option string)) :=
  t <- prepare_thread_title ;;
  ret (match filter (fun r => thread_id_is (SqlText thread_id) r = true) (rows t) with
       | r :: _ => Some (r_thread_title r)
       | [] => None
       end).

(** The [SET thread_title= ? WHERE thread_id= ?] of the update, on one
    row. *)
Definition retitle (v : sqlval) (new_title : string) (r : row) : row :=
  if thread_id_is v r
  then {| r_thread_id := r_thread_id r;
          r_thread_title := Some new_title;
          r_checkpoint := r_checkpoint r |}
  else r.

(** [UPDATE checkpoints SET thread_title= ? WHERE thread_id= ?]; the
    result is [cursor.rowcount], the number of rows matched. *)
Definition update_thread_title_where (new_title : string) (thread_id : pyval)
  : M nat :=
  t <- prepare_thread_title ;;
  match bind_param 2 thread_id with
  | Raise e => raise e
  | Ok v =>
      put (Some {| columns := columns t;
                   rows := map (retitle v new_title) (rows t) |}) ;;;
      ret (length (filter (fun r => thread_id_is v r = true) (rows t)))
  end.

End Sqlite.
Import Sqlite.

(** ** The checkpointer of the graph library *)

Module Checkpointer.

(** The checkpointing library ([SqliteSaver] and the compiled graph's
    [get_state]) is an external collaborator whose code is not part of the
    sources. It keeps one row per step of a thread in [checkpoints], keyed
    by the text of the thread id, creates the table on first use, and the
    state of a thread is the one saved in its newest row. *)

(** Modelled from the spec: the columns of [checkpoints] as the library
    creates it, before the title column is added. *)
Definition base_columns : list string :=
  ["thread_id"; "checkpoint_ns"; "checkpoint_id"; "parent_checkpoint_id";
   "type"; "checkpoint"; "metadata"].

(** Modelled from the spec: the library's [setup], the
    [CREATE TABLE IF NOT EXISTS checkpoints (...)] that it runs before
    every operation. *)
Definition setup : M unit :=
  s <- get ;;
  match s with
  | Some _ => ret tt
  | None => put (Some {| columns := base_columns; rows := [] |})
  end.

(** Modelled from the spec: [checkpointer.list(None)], read for
    [config["configurable"]["thread_id"]] of every checkpoint, newest
    first. *)
Definition list_thread_ids : M (list string) :=
  setup ;;;
  s <- get ;;
  ret (rev (map r_thread_id (table_rows s))).

(** Modelled from the spec: [checkpointer.delete_thread(thread_id)], which
    deletes the rows whose thread id is [str(thread_id)]. *)
Definition delete_thread (thread_id : pyval) : M unit :=
  setup ;;;
  s <- get ;;
  put (Some {| columns := match s with
                          | Some t => columns t
                          | None => base_columns
                          end;
               rows := filter (fun r => r_thread_id r <> str thread_id)
                              (table_rows s) |}).

(** Modelled from the spec:
    [chatbot.get_state(config).values.get("messages", [])] for the thread
    id of [config], the messages saved in the newest row of the thread,
    none when the thread has no row. *)
Definition get_state_messages (thread_id : pyval) : M (list message) :=
  setup ;;;
  s <- get ;;
  ret (match last (filter (fun r => r_thread_id r = str thread_id)
                          (table_rows s)) with
       | Some r => r_checkpoint r
       | None => []
       end).

End Checkpointer.

(** ** The thread functions of the backend (sections 5 and 7) *)

Module Backend.

(** A thread as the backend returns it: the dict with the keys
    [thread_id], [messages] and [thread_title]. *)
Record thread : Type := Thread {
  thread_id : pyval;
  messages : list message;
  thread_title : string
}.

(** The expression [x[:20] + "..." if len(x) > 20 else x], which the
    source writes out for the first message's text (twice in the backend)
    and for the user's input (in the frontend). *)
Definition auto_title (x : string) : string :=
  if (20 <? String.length x)%nat then slice_to 20 x +:+ "..." else x.

(** [row[0] if row and row[0]]: the title cell of a fetched row when the
    row is there and the cell is neither NULL nor the empty text. *)
Definition truthy_cell (row : option (option string)) : option string :=
  match row with
  | Some (Some title) => if String.eqb title "" then None else Some title
  | Some None => None
  | None => None
  end.

Definition add_column_to_checkpoints_table (column_name column_type : string)
  : M (bool * string) :=
  try_except
    (found <- select_table_checkpoints ;;
     match found with
     | None => ret (false, "Table 'checkpoints' not created yet.")
     | Some _ =>
         columns <- pragma_table_info ;;
         if negb (existsb (String.eqb column_name) columns) then
           alter_table_add_column column_name column_type ;;;
           commit ;;;
           ret (true, "Column '" +:+ column_name +:+ "' added successfully.")
         else
           ret (true, "Column '" +:+ column_name +:+ "' already exists.")
     end)
    (fun e =>
       ret (false, "Error adding column '" +:+ column_name +:+ "': "
                   +:+ str_exn e)).

Definition update_thread_title (thread_id : pyval) (new_title : string)
  : M (bool * string) :=
  try_except
    (rowcount <- update_thread_title_where new_title thread_id ;;
     commit ;;;
     if Nat.eqb rowcount 0 then
       ret (false, "No thread found with ID: " +:+ str thread_id)
     else
       ret (true, "Thread title updated successfully for ID: "
                  +:+ str thread_id))
    (fun e =>
       ret (false, "Error updating thread title for ID '" +:+ str thread_id
                   +:+ "': " +:+ str_exn e)).

(** The loops over a Python [set] go through its elements in an order
    that the language leaves open; here it is the order of [elements]. *)
Definition delete_threads (thread_id : pyval) : M (bool * string) :=
  try_except
    (if truthy thread_id then
       Checkpointer.delete_thread thread_id ;;;
       ret (true, "Successfully deleted conversation with ID: "
                  +:+ str thread_id)
     else
       ids <- Checkpointer.list_thread_ids ;;
       let all_threads : gset string := list_to_set ids in
       for_each (elements all_threads)
                (fun t_id => Checkpointer.delete_thread (PStr t_id)) ;;;
       ret (true, "Successfully deleted " +:+ pretty (size all_threads)
                  +:+ " conversations"))
    (fun e => ret (false, "Error deleting threads: " +:+ str_exn e)).

Definition load_conversation (thread_id : pyval) : M (list message) :=
  try_except
    (Checkpointer.get_state_messages thread_id)
    (fun e =>
       ret [MDict {[ "error" := "Failed to load conversation: "
                                +:+ str_exn e ]}]).

Section Messages.

(** [str(d)] of a dict, which Python prints in the order of insertion
    of its keys; a [gmap] does not keep that order, so this one
    function is left open. *)
Variable dict_str : gmap string string -> string.

(** No branch of the [try] block raises on a [message], so its
    handler is not written out. *)
Definition get_message_content (msg : message) : string :=
  match msg with
  | MObj _ content => content
  | MDict d =>
      match d !! "content" with
      | Some content => content
      | None => dict_str d
      end
  | MStr s => s
  end.

Definition get_thread_by_id (thread_id : pyval) : M thread :=
  try_except
    (row <- select_thread_title (str thread_id) ;;
     messages <- load_conversation thread_id ;;
     let thread_title :=
       match truthy_cell row with
       | Some title => title
       | None =>
           match messages with
           | first :: _ => auto_title (get_message_content first)
           | [] => "New Chat"
           end
       end in
     ret {| thread_id := thread_id;
            messages := messages;
            thread_title := thread_title |})
    (fun e =>
       ret {| thread_id := thread_id;
              messages := [];
              thread_title := "Error: " +:+ str_exn e |}).

Definition retrieve_all_threads : M (list thread) :=
  try_except
    (ids <- Checkpointer.list_thread_ids ;;
     let all_threads : gset string := list_to_set ids in
     for_each (elements all_threads)
       (fun thread =>
          messages <- load_conversation (PStr thread) ;;
          row <- select_thread_title thread ;;
          let thread_title :=
            match truthy_cell row with
            | Some title => title
            | None =>
                let thread_title := "New Chat" in
                match messages with
                | first :: _ => auto_title (get_message_content first)
                | [] => thread_title
                end
            end in
          ret {| thread_id := PStr thread;
                 messages := messages;
                 thread_title := thread_title |}))
    (fun e =>
       ret [ {| thread_id := PNone;
                messages := [];
                thread_title := "Error: " +:+ str_exn e |} ]).

End Messages.

End Backend.
Import Backend.

(** ** The title step of the frontend *)

Module Frontend.

Section TitleStep.

Variable dict_str : gmap string string -> string.

(** Lines 159 to 162 of the frontend, run for a non-empty [user_input]
    with the [thread_id] of the session: the result is the [new_title]
    handed to [update_thread_title], or [None] when the branch is not
    taken. *)
Definition title_step (thread_id : pyval) (user_input : string)
  : M (option string) :=
  thread <- get_thread_by_id dict_str thread_id ;;
  if String.eqb (thread_title thread) "New Chat" then
    let new_title := auto_title user_input in
    update_thread_title thread_id new_title ;;;
    ret (Some new_title)
  else
    ret None.

End TitleStep.

End Frontend.
Import Frontend.

(** ** What the store holds about a thread *)

Module Views.

(** What the statements on [thread_title] see of the database: the table,
    or the error of a missing table or column. *)
Definition thread_title_table (d : db) : res table :=
  match d with
  | None => Raise no_such_table
  | Some t =>
      if existsb (String.eqb "thread_title") (columns t) then Ok t
      else Raise (no_such_column "thread_title")
  end.

(** The rows of a thread, oldest first. *)
Definition thread_rows (d : db) (id : string) : list row :=
  filter (fun r => r_thread_id r = id) (table_rows d).

(** A thread is known when it has a row. *)
Definition known (d : db) (id : string) : Prop :=
  id ∈ map r_thread_id (table_rows d).

(** The message sequence of a thread: the one saved in its newest row. *)
Definition thread_messages (d : db) (id : string) : list message :=
  match last (thread_rows d id) with
  | Some r => r_checkpoint r
  | None => []
  end.

(** The title cell that a lookup of the thread reads: the one of its
    oldest row. *)
Definition stored_title (d : db) (id : string) : option string :=
  match thread_rows d id with
  | r :: _ => r_thread_title r
  | [] => None
  end.

(** The thread ids of the store, each once. *)
Definition distinct_thread_ids (d : db) : list string :=
  remove_dups (map r_thread_id (table_rows d)).

(** The table once the checkpointer has run its [setup]: the table of
    the store, or a new empty one. *)
Definition after_setup (d : db) : table :=
  match d with
  | Some t => t
  | None => {| columns := Checkpointer.base_columns; rows := [] |}
  end.

(** The threads that the loops of [retrieve_all_threads] and
    [delete_threads] go through: the set of the listed thread ids. *)
Definition listed_threads (d : db) : gset string :=
  list_to_set (rev (map r_thread_id (table_rows d))).

Section Titles.

Variable dict_str : gmap string string -> string.

(** The title derived from the first message, ["New Chat"] for a
    thread without messages. *)
Definition first_message_title (msgs : list message) : string :=
  match msgs with
  | first :: _ => auto_title (get_message_content dict_str first)
  | [] => "New Chat"
  end.

(** The precedence of the thread functions: the stored title when it
    is there and not empty, else the title from the first message. *)
Definition resolved_title (stored : option string) (msgs : list message)
  : string :=
  match stored with
  | Some title =>
      if String.eqb title "" then first_message_title msgs else title
  | None => first_message_title msgs
  end.

(** The precedence as the specification words it: the stored title
    when it is there and not the default ["New Chat"], else the title
    from the first message. *)
Definition claimed_title (stored : option string) (msgs : list message)
  : string :=
  match stored with
  | Some title =>
      if String.eqb title "New Chat" then first_message_title msgs
      else title
  | None => first_message_title msgs
  end.

(** The thread that [get_thread_by_id] and [retrieve_all_threads]
    build for a thread id when the statements on [thread_title] run. *)
Definition thread_view (d : db) (thread_id : pyval) : thread :=
  {| thread_id := thread_id;
     messages := thread_messages d (str thread_id);
     thread_title :=
       resolved_title (stored_title d (str thread_id))
                      (thread_messages d (str thread_id)) |}.

End Titles.

(** The listing can read the titles: the store has no row, or its table
    has the [thread_title] column. *)
Definition titles_readable (d : db) : Prop :=
  table_rows d = [] \/ exists t, thread_title_table d = Ok t.

End Views.
Import Views.

(** ** The session of the frontend and its buttons *)

Module Session.

(** [==] on the values a thread id is taken from, as [in] uses it. *)
#[global] Instance pyval_eq_dec : EqDecision pyval.
Proof. solve_decision. Defined.

(** [st.session_state] once the script has set its three keys:
    ["message_history"], ["thread_id"] (here [active_thread_id]) and
    ["chat_threads"]. A message of the history is a dict with string
    values. *)
Record session_state : Type := SessionState {
  message_history : list (gmap string string);
  active_thread_id : pyval;
  chat_threads : list thread
}.

(** The [try] block cannot fail on a session that has its keys, so the
    handler is not written out. *)
Definition add_thread (th : thread) (ss : session_state) : session_state :=
  if decide (thread_id th ∈ map thread_id (chat_threads ss)) then ss
  else {| message_history := message_history ss;
          active_thread_id := active_thread_id ss;
          chat_threads := chat_threads ss ++ [th] |}.

(** [generate_thread_id()] draws a random [uuid.UUID]; its text is the
    argument [fresh]. *)
Definition reset_chat (fresh : string) (ss : session_state) : M session_state :=
  let thread_id := PUuid fresh in
  let ss1 := {| message_history := message_history ss;
                active_thread_id := thread_id;
                chat_threads := chat_threads ss |} in
  let ss2 := add_thread {| thread_id := thread_id;
                           messages := [];
                           thread_title := "New Chat" |} ss1 in
  let ss3 := {| message_history := [];
                active_thread_id := active_thread_id ss2;
                chat_threads := chat_threads ss2 |} in
  update_thread_title thread_id "New Chat" ;;;
  ret ss3.

Fixpoint convert_to_frontend_format (messages : list message)
  : list (gmap string string) :=
  match messages with
  | [] => []
  | msg :: rest =>
      match msg with
      | MObj kind content =>
          let role := match kind with
                      | Human => "user"
                      | _ => "assistant"
                      end in
          {[ "role" := role; "content" := content ]}
            :: convert_to_frontend_format rest
      | MDict d =>
          match d !! "role", d !! "content" with
          | Some _, Some _ => d :: convert_to_frontend_format rest
          | _, _ => convert_to_frontend_format rest
          end
      | MStr _ => convert_to_frontend_format rest
      end
  end.

Section Buttons.

Variable dict_str : gmap string string -> string.

Definition update_sidebar_threads (ss : session_state) : M session_state :=
  backend_threads <- retrieve_all_threads dict_str ;;
  ret {| message_history := message_history ss;
         active_thread_id := active_thread_id ss;
         chat_threads := backend_threads |}.

(** Lines 64 to 79: the first run of a session ([None]) sets the three
    keys, drawing a thread id [fresh1]; every run then makes sure that
    there is a chat, drawing [fresh2] when it resets. *)
Definition session_init (fresh1 fresh2 : string) (ss : option session_state)
  : M session_state :=
  ss1 <- match ss with
         | Some ss0 => ret ss0
         | None =>
             threads <- retrieve_all_threads dict_str ;;
             ret {| message_history := [];
                    active_thread_id := PUuid fresh1;
                    chat_threads := threads |}
         end ;;
  match chat_threads ss1 with
  | [] => reset_chat fresh2 ss1
  | _ :: _ => ret ss1
  end.

(** Lines 87 to 98, up to [st.rerun()]. *)
Definition delete_all_button (fresh : string) (ss : session_state)
  : M session_state :=
  r <- delete_threads PNone ;;
  if fst r then
    reset_chat fresh {| message_history := message_history ss;
                        active_thread_id := active_thread_id ss;
                        chat_threads := [] |}
  else ret ss.

(** Lines 127 to 134: the save button of the rename box of [thread]. *)
Definition save_button (thread : thread) (new_name : string)
           (ss : session_state) : M session_state :=
  r <- update_thread_title (thread_id thread) new_name ;;
  if fst r then
    threads <- retrieve_all_threads dict_str ;;
    ret {| message_history := message_history ss;
           active_thread_id := active_thread_id ss;
           chat_threads := threads |}
  else ret ss.

(** Lines 137 to 140: the delete button of [thread]. *)
Definition delete_button (thread : thread) (ss : session_state)
  : M session_state :=
  delete_threads (thread_id thread) ;;;
  threads <- retrieve_all_threads dict_str ;;
  ret {| message_history := message_history ss;
         active_thread_id := active_thread_id ss;
         chat_threads := threads |}.

End Buttons.

End Session.
Import Session.

(** * Properties *)

(** ** Calculator *)

(** C1. For all numbers [a], [b] and every operation among add, sub, mul
    and div, with [b] nonzero when the operation is div, the calculator
    returns the record of [a], [b], the operation tag and the result of the
    operation on [a] and [b]: the sum, difference, product or quotient of
    the language's floats, which is the IEEE 754 binary64 one. *)
Theorem calculator_supported_result (a b : float) (op : supported) :
  (op = Div -> PrimFloat.eqb b 0%float = false) ->
  calculator a b (tag op)
  = {[ "first_num" := VNum a;
       "second_num" := VNum b;
       "operation" := VStr (tag op);
       "result" := VNum (arith op a b) ]}
  /\ Prim2SF (arith op a b) = ieee op (Prim2SF a) (Prim2SF b).
Proof.
  intros Hnz. split.
  - unfold calculator, calculator_try.
    destruct op; cbn [tag arith String.eqb Ascii.eqb Bool.eqb]; try reflexivity.
    unfold float_truediv. rewrite (Hnz eq_refl). reflexivity.
  - destruct op; cbn [arith ieee].
    + apply add_spec.
    + apply sub_spec.
    + apply mul_spec.
    + apply div_spec.
Qed.

Lemma calculator_supported_result_witness :
  calculator 84%float 7%float "div"
  = {[ "first_num" := VNum 84%float;
       "second_num" := VNum 7%float;
       "operation" := VStr "div";
       "result" := VNum 12%float ]}.
Proof.
  apply (calculator_supported_result 84%float 7%float Div).
  intros _. reflexivity.
Defined.

(** C2. Division by zero (a zero divisor of either sign) yields the dict
    with the single key ["error"]: the [try] block raises nothing and the
    dict has no ["result"]. An operation outside add, sub, mul and div
    yields the same shape, and its error text contains the operation. *)
Theorem calculator_error_results (a b : float) (operation : string) :
  (PrimFloat.eqb b 0%float = true ->
   calculator_try a b "div"
   = Ok {[ "error" := VStr "Division by zero is not allowed" ]}
   /\ calculator a b "div"
      = {[ "error" := VStr "Division by zero is not allowed" ]}
   /\ is_Some (calculator a b "div" !! "error")
   /\ calculator a b "div" !! "result" = None)
  /\
  (~ is_supported operation ->
   calculator_try a b operation
   = Ok {[ "error" := VStr ("Unsupported operation '" +:+ operation +:+ "'") ]}
   /\ calculator a b operation
      = {[ "error" := VStr ("Unsupported operation '" +:+ operation +:+ "'") ]}
   /\ (exists text pre post,
         calculator a b operation !! "error" = Some (VStr text)
         /\ text = pre +:+ operation +:+ post)
   /\ calculator a b operation !! "result" = None).
Proof.
  split.
  - intros Hz.
    assert (Htry : calculator_try a b "div"
                   = Ok {[ "error" := VStr "Division by zero is not allowed" ]}).
    { unfold calculator_try. cbn [String.eqb Ascii.eqb Bool.eqb].
      rewrite Hz. reflexivity. }
    unfold calculator. rewrite Htry.
    split; [reflexivity |]. split; [reflexivity |].
    split; [eexists |]; reflexivity.
  - intros Hun.
    assert (Hne : forall op, String.eqb operation (tag op) = false).
    { intros op. apply String.eqb_neq. intros ->. apply Hun. exists op. reflexivity. }
    assert (Htry : calculator_try a b operation
                   = Ok {[ "error" := VStr ("Unsupported operation '"
                                            +:+ operation +:+ "'") ]}).
    { unfold calculator_try.
      rewrite (Hne Add : String.eqb operation "add" = false),
        (Hne Sub : String.eqb operation "sub" = false),
        (Hne Mul : String.eqb operation "mul" = false),
        (Hne Div : String.eqb operation "div" = false).
      reflexivity. }
    unfold calculator. rewrite Htry.
    split; [reflexivity |]. split; [reflexivity |]. split.
    + exists ("Unsupported operation '" +:+ operation +:+ "'"),
             "Unsupported operation '", "'".
      split; reflexivity.
    + reflexivity.
Qed.

Lemma calculator_error_results_witness :
  calculator 5%float (-0)%float "div"
  = {[ "error" := VStr "Division by zero is not allowed" ]}
  /\ calculator 5%float 3%float "mod"
     = {[ "error" := VStr "Unsupported operation 'mod'" ]}.
Proof.
  split.
  - apply (calculator_error_results 5%float (-0)%float "mod"). reflexivity.
  - apply (calculator_error_results 5%float 3%float "mod").
    intros [op Hop]. destruct op; discriminate Hop.
Defined.

(** ** Strings and the automatic title *)

Lemma append_empty_r (s : string) : s +:+ "" = s.
Proof.
  induction s as [| c s IH]; [reflexivity |].
  change (String c (s +:+ "") = String c s). now rewrite IH.
Qed.

Lemma slice_to_slice_from (n : nat) (s : string) :
  slice_to n s +:+ slice_from n s = s.
Proof.
  revert s. induction n as [| n IH]; intros [| c s]; simpl; try reflexivity.
  change (String c (slice_to n s +:+ slice_from n s) = String c s).
  now rewrite IH.
Qed.

Lemma length_slice_to (n : nat) (s : string) :
  n <= String.length s -> String.length (slice_to n s) = n.
Proof.
  revert s. induction n as [| n IH]; intros [| c s]; simpl; intros Hn;
    try reflexivity; try lia.
  rewrite IH; [reflexivity | lia].
Qed.

(** ** Running the database monad *)

Ltac run_db :=
  unfold try_except, bind, ret, raise, get, put, commit in *; simpl in *.

Lemma prepare_thread_title_run (d : db) :
  prepare_thread_title d = (d, thread_title_table d).
Proof.
  unfold prepare_thread_title, thread_title_table. run_db.
  destruct d as [t |]; [| reflexivity].
  destruct (existsb _ (columns t)); reflexivity.
Qed.

Lemma thread_title_table_some (d : db) (t : table) :
  thread_title_table d = Ok t -> d = Some t.
Proof.
  unfold thread_title_table. destruct d as [t' |]; [| discriminate].
  destruct (existsb _ (columns t')); [| discriminate]. congruence.
Qed.

Lemma select_thread_title_run (thread_id : string) (d : db) :
  select_thread_title thread_id d
  = (d, res_bind (thread_title_table d)
          (fun t =>
             Ok (match filter (fun r => thread_id_is (SqlText thread_id) r = true)
                              (rows t) with
                 | r :: _ => Some (r_thread_title r)
                 | [] => None
                 end))).
Proof.
  unfold select_thread_title, bind. rewrite prepare_thread_title_run.
  destruct (thread_title_table d); reflexivity.
Qed.

Lemma load_conversation_some (thread_id : pyval) (t : table) :
  load_conversation thread_id (Some t)
  = (Some t,
     Ok (match last (filter (fun r => r_thread_id r = str thread_id) (rows t)) with
         | Some r => r_checkpoint r
         | None => []
         end)).
Proof. reflexivity. Qed.

(** [get_thread_by_id] always returns a thread and leaves the database
    as it was. *)
Lemma get_thread_by_id_total (dict_str : gmap string string -> string)
      (thread_id : pyval) (d : db) :
  exists th, get_thread_by_id dict_str thread_id d = (d, Ok th).
Proof.
  unfold get_thread_by_id, try_except, bind.
  rewrite select_thread_title_run.
  destruct (thread_title_table d) as [t | e] eqn:Ht; simpl;
    [| eexists; reflexivity].
  apply thread_title_table_some in Ht. subst d.
  rewrite load_conversation_some. eexists; reflexivity.
Qed.

Lemma update_thread_title_where_run (new_title : string) (thread_id : pyval)
      (d : db) :
  update_thread_title_where new_title thread_id d
  = match thread_title_table d, bind_param 2 thread_id with
    | Raise e, _ => (d, Raise e)
    | Ok t, Raise e => (d, Raise e)
    | Ok t, Ok v =>
        (Some {| columns := columns t;
                 rows := map (retitle v new_title) (rows t) |},
         Ok (length (filter (fun r => thread_id_is v r = true) (rows t))))
    end.
Proof.
  unfold update_thread_title_where, bind. rewrite prepare_thread_title_run.
  destruct (thread_title_table d) as [t | e]; [| reflexivity].
  destruct (bind_param 2 thread_id); reflexivity.
Qed.

(** [update_thread_title] always returns its pair. *)
Lemma update_thread_title_total (thread_id : pyval) (new_title : string) (d : db) :
  exists d' ok message,
    update_thread_title thread_id new_title d = (d', Ok (ok, message)).
Proof.
  unfold update_thread_title, try_except, bind.
  rewrite update_thread_title_where_run.
  destruct (thread_title_table d) as [t | e]; [| do 3 eexists; reflexivity].
  destruct (bind_param 2 thread_id) as [v | e]; [| do 3 eexists; reflexivity].
  unfold commit, ret.
  destruct (Nat.eqb _ 0); do 3 eexists; reflexivity.
Qed.

(** The title step reads the thread and renames it, or does nothing. *)
Lemma title_step_run (dict_str : gmap string string -> string)
      (s : string) (thread_id : pyval) (d : db) :
  exists th,
    get_thread_by_id dict_str thread_id d = (d, Ok th)
    /\ (thread_title th = "New Chat" ->
        title_step dict_str thread_id s d
        = (fst (update_thread_title thread_id (auto_title s) d),
           Ok (Some (auto_title s))))
    /\ (thread_title th <> "New Chat" ->
        title_step dict_str thread_id s d = (d, Ok None)).
Proof.
  destruct (get_thread_by_id_total dict_str thread_id d) as [th Hth].
  exists th. split; [exact Hth |].
  split; intros Htitle; unfold title_step, bind at 1; rewrite Hth.
  - rewrite Htitle. cbn [String.eqb Ascii.eqb Bool.eqb].
    destruct (update_thread_title_total thread_id (auto_title s) d)
      as (d' & ok & message & Hup).
    unfold bind. rewrite Hup. reflexivity.
  - apply String.eqb_neq in Htitle. rewrite Htitle. reflexivity.
Qed.

(** Counterexample to C4 as stated. The text of the end-to-end example is
    not cut: its title is not its first 20 characters followed by
    ["..."]. *)
Lemma twelve_times_seven_not_cut :
  auto_title "What is 12 times 7?"
  <> slice_to 20 "What is 12 times 7?" +:+ "...".
Proof. vm_compute. discriminate. Qed.

(** C4, amended. ["What is 12 times 7?"] has 19 characters, which is not
    more than 20, so its automatic title is the text itself, and the title
    step hands exactly that text to [update_thread_title] whenever it
    hands over a title at all. *)
Theorem twelve_times_seven_title (dict_str : gmap string string -> string)
        (thread_id : pyval) (d : db) :
  String.length "What is 12 times 7?" = 19
  /\ auto_title "What is 12 times 7?" = "What is 12 times 7?"
  /\ (snd (title_step dict_str thread_id "What is 12 times 7?" d) = Ok None
      \/ snd (title_step dict_str thread_id "What is 12 times 7?" d)
         = Ok (Some "What is 12 times 7?")).
Proof.
  split; [reflexivity |]. split; [reflexivity |].
  destruct (title_step_run dict_str "What is 12 times 7?" thread_id d)
    as (th & _ & Hnew & Hold).
  destruct (String.eqb_spec (thread_title th) "New Chat") as [Heq | Hne].
  - right. rewrite (Hnew Heq). reflexivity.
  - left. rewrite (Hold Hne). reflexivity.
Qed.

(** ** Renaming a thread *)

Lemma bind_param_target (pos : nat) (thread_id : pyval) (v : sqlval) (r : row) :
  bind_param pos thread_id = Ok v ->
  thread_id_is v r = true -> r_thread_id r = str thread_id.
Proof.
  destruct thread_id as [| z | s | u]; simpl.
  - intros [= <-]. discriminate.
  - destruct (_ && _); [| discriminate]. intros [= <-]. apply String.eqb_eq.
  - intros [= <-]. apply String.eqb_eq.
  - discriminate.
Qed.

Lemma retitle_none (v : sqlval) (new_title : string) (l : list row) :
  Forall (fun r => thread_id_is v r = false) l ->
  map (retitle v new_title) l = l
  /\ filter (fun r => thread_id_is v r = true) l = [].
Proof.
  induction 1 as [| r l Hr _ [IHmap IHfilter]]; [split; reflexivity |].
  split.
  - simpl. unfold retitle at 1. rewrite Hr, IHmap. reflexivity.
  - rewrite filter_cons_False; [exact IHfilter | congruence].
Qed.

(** C5. Renaming a thread id that has no row in the store returns
    [False] with a message that contains the text of the id; nothing is
    raised and the store is left as it was. *)
Theorem update_thread_title_unknown (thread_id : pyval) (new_title : string)
        (d : db) :
  (forall r, r ∈ table_rows d -> r_thread_id r <> str thread_id) ->
  exists message pre post,
    update_thread_title thread_id new_title d = (d, Ok (false, message))
    /\ message = pre +:+ str thread_id +:+ post.
Proof.
  intros Hnone.
  unfold update_thread_title, try_except, bind.
  rewrite update_thread_title_where_run.
  destruct (thread_title_table d) as [t | e] eqn:Ht.
  - apply thread_title_table_some in Ht. subst d.
    destruct (bind_param 2 thread_id) as [v | e] eqn:Hv.
    + assert (Hall : Forall (fun r => thread_id_is v r = false) (rows t)).
      { apply Forall_forall. intros r Hr.
        destruct (thread_id_is v r) eqn:Hm; [| reflexivity].
        exfalso. apply (Hnone r Hr). exact (bind_param_target _ _ _ _ Hv Hm). }
      destruct (retitle_none v new_title _ Hall) as [-> ->].
      destruct t as [cols rws]. simpl.
      exists ("No thread found with ID: " +:+ str thread_id),
             "No thread found with ID: ", "".
      split; [reflexivity |].
      rewrite append_empty_r. reflexivity.
    + eexists _, "Error updating thread title for ID '", _.
      split; reflexivity.
  - eexists _, "Error updating thread title for ID '", _.
    split; reflexivity.
Qed.

Lemma update_thread_title_unknown_witness :
  update_thread_title (PStr "ghost") "Plans"
    (Some {| columns := Checkpointer.base_columns ++ ["thread_title"];
             rows := [ {| r_thread_id := "t1";
                          r_thread_title := None;
                          r_checkpoint := [MObj Human "Hello"] |} ] |})
  = (Some {| columns := Checkpointer.base_columns ++ ["thread_title"];
             rows := [ {| r_thread_id := "t1";
                          r_thread_title := None;
                          r_checkpoint := [MObj Human "Hello"] |} ] |},
     Ok (false, "No thread found with ID: ghost")).
Proof.
  destruct (update_thread_title_unknown (PStr "ghost") "Plans"
              (Some {| columns := Checkpointer.base_columns ++ ["thread_title"];
                       rows := [ {| r_thread_id := "t1";
                                    r_thread_title := None;
                                    r_checkpoint := [MObj Human "Hello"] |} ] |}))
    as (message & pre & post & Hrun & _).
  - intros r Hr. apply list_elem_of_singleton in Hr. subst r. discriminate.
  - reflexivity.
Defined.

Lemma retitle_thread_id (v : sqlval) (new_title : string) (r : row) :
  r_thread_id (retitle v new_title r) = r_thread_id r.
Proof. unfold retitle. destruct (thread_id_is v r); reflexivity. Qed.

Lemma retitle_checkpoint (v : sqlval) (new_title : string) (r : row) :
  r_checkpoint (retitle v new_title r) = r_checkpoint r.
Proof. unfold retitle. destruct (thread_id_is v r); reflexivity. Qed.

Lemma map_retitle_thread_id (v : sqlval) (new_title : string) (l : list row) :
  map r_thread_id (map (retitle v new_title) l) = map r_thread_id l.
Proof.
  rewrite map_map. apply map_ext. intros r. apply retitle_thread_id.
Qed.

Lemma map_retitle_checkpoint (v : sqlval) (new_title : string) (l : list row) :
  map r_checkpoint (map (retitle v new_title) l) = map r_checkpoint l.
Proof.
  rewrite map_map. apply map_ext. intros r. apply retitle_checkpoint.
Qed.

(** A selection by thread id commutes with the update. *)
Lemma filter_map_retitle (id : string) (v : sqlval) (new_title : string)
      (l : list row) :
  filter (fun r => r_thread_id r = id) (map (retitle v new_title) l)
  = map (retitle v new_title) (filter (fun r => r_thread_id r = id) l).
Proof.
  induction l as [| r l IH]; [reflexivity |].
  cbn [map]. rewrite !filter_cons, retitle_thread_id.
  destruct (decide (r_thread_id r = id)); cbn [map]; now rewrite IH.
Qed.

Lemma last_map {A B : Type} (f : A -> B) (l : list A) :
  last (map f l) = option_map f (last l).
Proof.
  induction l as [| x [| y l] IH]; try reflexivity.
  exact IH.
Qed.

(** Rows of other threads are not touched by the update. *)
Lemma filter_retitle_other (P : row -> Prop) `{!forall r, Decision (P r)}
      (v : sqlval) (new_title : string) (l : list row) :
  (forall r, P (retitle v new_title r) <-> P r) ->
  (forall r, P r -> thread_id_is v r = false) ->
  filter P (map (retitle v new_title) l) = filter P l.
Proof.
  intros Hiff Hother. induction l as [| r l IH]; [reflexivity |].
  cbn [map]. rewrite !filter_cons.
  destruct (decide (P r)) as [Hr | Hr].
  - rewrite decide_True by (apply Hiff; exact Hr).
    rewrite IH. unfold retitle. rewrite (Hother r Hr). reflexivity.
  - rewrite decide_False by (rewrite Hiff; exact Hr). exact IH.
Qed.

Lemma filter_thread_id_is_text (id : string) (l : list row) :
  filter (fun r => thread_id_is (SqlText id) r = true) l
  = filter (fun r => r_thread_id r = id) l.
Proof.
  apply list_filter_iff. intros r. simpl. apply String.eqb_eq.
Qed.

Lemma truthy_cell_resolved (dict_str : gmap string string -> string)
      (l : list row) (msgs : list message) :
  match truthy_cell (match l with
                     | r :: _ => Some (r_thread_title r)
                     | [] => None
                     end) with
  | Some title => title
  | None => first_message_title dict_str msgs
  end
  = resolved_title dict_str
      (match l with r :: _ => r_thread_title r | [] => None end) msgs.
Proof.
  destruct l as [| [id [title |] cp] l]; simpl; try reflexivity.
  destruct (String.eqb title ""); reflexivity.
Qed.

(** What [get_thread_by_id] returns. *)
Lemma get_thread_by_id_run (dict_str : gmap string string -> string)
      (thread_id : pyval) (d : db) :
  get_thread_by_id dict_str thread_id d
  = (d, Ok (match thread_title_table d with
            | Ok _ => thread_view dict_str d thread_id
            | Raise e => {| thread_id := thread_id;
                            messages := [];
                            thread_title := "Error: " +:+ str_exn e |}
            end)).
Proof.
  unfold get_thread_by_id, try_except, bind.
  rewrite select_thread_title_run.
  destruct (thread_title_table d) as [t | e] eqn:Ht; cbn [res_bind];
    [| reflexivity].
  apply thread_title_table_some in Ht. subst d.
  rewrite load_conversation_some. unfold ret. do 2 f_equal.
  rewrite filter_thread_id_is_text.
  unfold thread_view. f_equal.
  apply (truthy_cell_resolved dict_str).
Qed.

Lemma bind_param_matches (pos : nat) (thread_id : pyval) (v : sqlval) (r : row) :
  bind_param pos thread_id = Ok v ->
  v <> SqlNull ->
  thread_id_is v r = thread_id_is (SqlText (str thread_id)) r.
Proof.
  destruct thread_id as [| z | s | u]; simpl.
  - intros [= <-] Hv. congruence.
  - destruct (_ && _); [| discriminate]. intros [= <-] _. reflexivity.
  - intros [= <-] _. reflexivity.
  - discriminate.
Qed.

(** What [update_thread_title] does to the store and what it returns. *)
Lemma update_thread_title_run (thread_id : pyval) (new_title : string) (d : db) :
  update_thread_title thread_id new_title d
  = match thread_title_table d, bind_param 2 thread_id with
    | Ok t, Ok v =>
        (Some {| columns := columns t;
                 rows := map (retitle v new_title) (rows t) |},
         Ok (if Nat.eqb (length (filter (fun r => thread_id_is v r = true)
                                        (rows t))) 0
             then (false, "No thread found with ID: " +:+ str thread_id)
             else (true, "Thread title updated successfully for ID: "
                         +:+ str thread_id)))
    | Ok _, Raise e | Raise e, _ =>
        (d, Ok (false, "Error updating thread title for ID '"
                       +:+ str thread_id +:+ "': " +:+ str_exn e))
    end.
Proof.
  unfold update_thread_title, try_except, bind.
  rewrite update_thread_title_where_run.
  destruct (thread_title_table d) as [t | e]; [| reflexivity].
  destruct (bind_param 2 thread_id) as [v | e]; [| reflexivity].
  unfold commit, ret. destruct (Nat.eqb _ 0); reflexivity.
Qed.

Section RetitleFrame.

Variables (v : sqlval) (new_title : string) (t : table).

Let after : db :=
  Some {| columns := columns t; rows := map (retitle v new_title) (rows t) |}.

Lemma retitle_thread_messages (id : string) :
  thread_messages after id = thread_messages (Some t) id.
Proof.
  unfold thread_messages, thread_rows, after. cbn [table_rows rows].
  rewrite filter_map_retitle, last_map.
  destruct (last _) as [r |]; [apply retitle_checkpoint | reflexivity].
Qed.

Lemma retitle_thread_rows_other (thread_id : pyval) (id : string) :
  bind_param 2 thread_id = Ok v ->
  id <> str thread_id ->
  thread_rows after id = thread_rows (Some t) id.
Proof.
  intros Hv Hid. unfold thread_rows, after. cbn [table_rows rows].
  apply filter_retitle_other.
  - intros r. now rewrite retitle_thread_id.
  - intros r Hr. destruct (thread_id_is v r) eqn:Hm; [| reflexivity].
    exfalso. apply Hid. rewrite <- Hr.
    exact (bind_param_target _ _ _ _ Hv Hm).
Qed.

Lemma retitle_thread_title_table :
  thread_title_table (Some t) = Ok t ->
  exists t', thread_title_table after = Ok t'.
Proof.
  unfold thread_title_table, after. cbn [columns].
  destruct (existsb _ (columns t)); [eauto | discriminate].
Qed.

(** Once a row matched, the lookup of the thread reads the new title. *)
Lemma retitle_stored_title (thread_id : pyval) :
  bind_param 2 thread_id = Ok v ->
  filter (fun r => thread_id_is v r = true) (rows t) <> [] ->
  stored_title after (str thread_id) = Some new_title.
Proof.
  intros Hv Hrows.
  assert (Hnn : v <> SqlNull).
  { intros ->. apply Hrows. clear. induction (rows t) as [| r l IH];
      [reflexivity |]. rewrite filter_cons_False; [exact IH | discriminate]. }
  assert (Hsame : filter (fun r => thread_id_is v r = true) (rows t)
                  = thread_rows (Some t) (str thread_id)).
  { unfold thread_rows. cbn [table_rows]. rewrite <- filter_thread_id_is_text.
    apply list_filter_iff. intros r.
    now rewrite (bind_param_matches _ _ _ r Hv Hnn). }
  unfold stored_title, thread_rows, after. cbn [table_rows rows].
  rewrite filter_map_retitle.
  change (filter (fun r => r_thread_id r = str thread_id) (rows t))
    with (thread_rows (Some t) (str thread_id)).
  rewrite <- Hsame.
  destruct (filter _ (rows t)) as [| r l] eqn:Hf; [congruence |].
  assert (Hr : thread_id_is v r = true).
  { assert (Hin : r ∈ filter (fun r => thread_id_is v r = true) (rows t))
      by (rewrite Hf; left).
    apply list_elem_of_filter in Hin. apply Hin. }
  cbn [map]. unfold retitle. rewrite Hr. reflexivity.
Qed.

End RetitleFrame.

(** C6. Renaming a thread that is in the store changes nothing but that
    thread's title cells: the rows keep their thread ids and saved
    messages, so every conversation loads as before (the renamed one
    too), the rows of every other thread are the same rows, and every
    other thread is reported by [get_thread_by_id] as before; when the
    rename reports success the lookup of the renamed thread reads the new
    title. *)
Theorem update_thread_title_frame (dict_str : gmap string string -> string)
        (thread_id : pyval) (new_title : string) (d : db) :
  known d (str thread_id) ->
  let d' := fst (update_thread_title thread_id new_title d) in
  map r_thread_id (table_rows d') = map r_thread_id (table_rows d)
  /\ map r_checkpoint (table_rows d') = map r_checkpoint (table_rows d)
  /\ (forall t, snd (load_conversation t d') = snd (load_conversation t d))
  /\ (forall id, id <> str thread_id -> thread_rows d' id = thread_rows d id)
  /\ (forall t, str t <> str thread_id ->
        snd (get_thread_by_id dict_str t d')
        = snd (get_thread_by_id dict_str t d))
  /\ (forall message,
        snd (update_thread_title thread_id new_title d) = Ok (true, message) ->
        stored_title d' (str thread_id) = Some new_title).
Proof.
  intros _. cbv zeta. rewrite update_thread_title_run.
  destruct (thread_title_table d) as [t | e] eqn:Ht.
  2: { cbn [fst snd]. repeat split; try reflexivity. discriminate. }
  destruct (bind_param 2 thread_id) as [v | e] eqn:Hv.
  2: { cbn [fst snd]. repeat split; try reflexivity. discriminate. }
  pose proof (thread_title_table_some _ _ Ht) as ->.
  cbn [fst snd table_rows rows].
  split; [apply map_retitle_thread_id |].
  split; [apply map_retitle_checkpoint |].
  split; [| split; [| split]].
  - intros t0. rewrite !load_conversation_some. cbn [snd]. f_equal.
    apply (retitle_thread_messages v new_title t (str t0)).
  - intros id Hid. exact (retitle_thread_rows_other v new_title t _ id Hv Hid).
  - intros t0 Hid. rewrite !get_thread_by_id_run. cbn [snd].
    destruct (retitle_thread_title_table v new_title t Ht) as [t' Ht'].
    rewrite Ht, Ht'. f_equal.
    unfold thread_view, stored_title.
    rewrite (retitle_thread_rows_other v new_title t _ _ Hv Hid).
    rewrite (retitle_thread_messages v new_title t (str t0)). reflexivity.
  - intros message Hok. apply (retitle_stored_title v new_title t _ Hv).
    intros Hnone. rewrite Hnone in Hok. discriminate Hok.
Qed.

Lemma update_thread_title_frame_witness :
  let d := Some {| columns := Checkpointer.base_columns ++ ["thread_title"];
                   rows := [ {| r_thread_id := "t1";
                                r_thread_title := None;
                                r_checkpoint := [MObj Human "Hello"] |};
                             {| r_thread_id := "t2";
                                r_thread_title := Some "Trip";
                                r_checkpoint := [MObj Human "Flights?"] |} ] |} in
  known d "t1"
  /\ snd (get_thread_by_id (fun _ => "") (PStr "t2")
            (fst (update_thread_title (PStr "t1") "Greetings" d)))
     = snd (get_thread_by_id (fun _ => "") (PStr "t2") d)
  /\ stored_title (fst (update_thread_title (PStr "t1") "Greetings" d)) "t1"
     = Some "Greetings".
Proof.
  intros d.
  assert (Hknown : known d "t1") by (unfold known; simpl; left).
  split; [exact Hknown |].
  destruct (update_thread_title_frame (fun _ => "") (PStr "t1") "Greetings" d
              Hknown) as (_ & _ & _ & _ & Hother & Hset).
  split.
  - apply Hother. discriminate.
  - apply (Hset "Thread title updated successfully for ID: t1"). reflexivity.
Defined.

(** ** Deleting threads *)

Lemma filter_all {A : Type} (P : A -> Prop) `{!forall x, Decision (P x)}
      (l : list A) :
  Forall P l -> filter P l = l.
Proof.
  induction 1 as [| x l Hx _ IH]; [reflexivity |].
  rewrite filter_cons_True by exact Hx. now rewrite IH.
Qed.

Lemma filter_none {A : Type} (P : A -> Prop) `{!forall x, Decision (P x)}
      (l : list A) :
  Forall (fun x => ~ P x) l -> filter P l = [].
Proof.
  induction 1 as [| x l Hx _ IH]; [reflexivity |].
  now rewrite filter_cons_False.
Qed.

Lemma table_rows_after_setup (d : db) :
  rows (after_setup d) = table_rows d.
Proof. destruct d; reflexivity. Qed.

Lemma list_thread_ids_run (d : db) :
  Checkpointer.list_thread_ids d
  = (Some (after_setup d), Ok (rev (map r_thread_id (table_rows d)))).
Proof. destruct d; reflexivity. Qed.

Lemma delete_thread_run (thread_id : pyval) (d : db) :
  Checkpointer.delete_thread thread_id d
  = (Some {| columns := columns (after_setup d);
             rows := filter (fun r => r_thread_id r <> str thread_id)
                            (table_rows d) |},
     Ok tt).
Proof. destruct d; reflexivity. Qed.

(** The loop of [delete_threads] leaves the rows of the threads it did
    not go through. *)
Lemma delete_each_run (l : list string) (t : table) :
  exists units,
    for_each l (fun t_id => Checkpointer.delete_thread (PStr t_id)) (Some t)
    = (Some {| columns := columns t;
               rows := filter (fun r => r_thread_id r ∉ l) (rows t) |},
       Ok units).
Proof.
  revert t. induction l as [| id l IH]; intros t.
  - exists []. cbn [for_each]. unfold ret.
    rewrite filter_all; [destruct t; reflexivity |].
    apply Forall_forall. intros r _. apply not_elem_of_nil.
  - cbn [for_each]. unfold bind at 1. rewrite delete_thread_run.
    cbn [after_setup table_rows str].
    destruct (IH {| columns := columns t;
                    rows := filter (fun r => r_thread_id r <> id) (rows t) |})
      as [units Hrun].
    unfold bind at 1. rewrite Hrun. cbn [columns rows]. unfold ret.
    exists (tt :: units). do 3 f_equal.
    rewrite list_filter_filter. apply list_filter_iff. intros r.
    rewrite not_elem_of_cons. tauto.
Qed.

Lemma elem_of_listed_threads (d : db) (id : string) :
  id ∈ listed_threads d <-> known d id.
Proof.
  unfold listed_threads, known.
  rewrite elem_of_list_to_set, !list_elem_of_In, <- in_rev. reflexivity.
Qed.

Lemma size_listed_threads (d : db) :
  size (listed_threads d) = length (distinct_thread_ids d).
Proof.
  unfold distinct_thread_ids.
  rewrite <- (size_list_to_set (C := gset string))
    by apply NoDup_remove_dups.
  f_equal. apply set_eq. intros id.
  rewrite elem_of_listed_threads. unfold known.
  now rewrite elem_of_list_to_set, elem_of_remove_dups.
Qed.

(** What [delete_threads] does. *)
Lemma delete_threads_run (thread_id : pyval) (d : db) :
  delete_threads thread_id d
  = if truthy thread_id then
      (Some {| columns := columns (after_setup d);
               rows := filter (fun r => r_thread_id r <> str thread_id)
                              (table_rows d) |},
       Ok (true, "Successfully deleted conversation with ID: "
                 +:+ str thread_id))
    else
      (Some {| columns := columns (after_setup d); rows := [] |},
       Ok (true, "Successfully deleted "
                 +:+ pretty (length (distinct_thread_ids d))
                 +:+ " conversations")).
Proof.
  unfold delete_threads, try_except.
  destruct (truthy thread_id).
  - unfold bind. rewrite delete_thread_run. reflexivity.
  - unfold bind at 1. rewrite list_thread_ids_run.
    fold (listed_threads d).
    destruct (delete_each_run (elements (listed_threads d)) (after_setup d))
      as [units Hrun].
    unfold bind. rewrite Hrun. unfold ret.
    rewrite size_listed_threads, table_rows_after_setup.
    rewrite filter_none; [reflexivity |].
    apply Forall_forall. intros r Hr Hnot. apply Hnot.
    apply elem_of_elements, elem_of_listed_threads.
    unfold known. apply list_elem_of_In, in_map, list_elem_of_In, Hr.
Qed.

(** ** Listing the threads *)

(** A loop whose body reads the title of each thread stops at the first
    thread when the statement fails, and else collects a thread per id. *)
Lemma for_each_view {B : Type} (body : string -> M B) (view : string -> B)
      (t : table) :
  (forall id,
      body id (Some t)
      = (Some t, res_bind (thread_title_table (Some t))
                          (fun _ => Ok (view id)))) ->
  forall l,
    for_each l body (Some t)
    = (Some t,
       match l, thread_title_table (Some t) with
       | [], _ => Ok []
       | _ :: _, Raise e => Raise e
       | _ :: _, Ok _ => Ok (map view l)
       end).
Proof.
  intros Hbody l. induction l as [| id l IH]; [reflexivity |].
  cbn [for_each]. unfold bind at 1. rewrite Hbody.
  destruct (thread_title_table (Some t)) as [t' | e]; cbn [res_bind];
    [| reflexivity].
  unfold bind at 1. rewrite IH. destruct l; reflexivity.
Qed.

(** What [retrieve_all_threads] returns. *)
Lemma retrieve_all_threads_run (dict_str : gmap string string -> string)
      (d : db) :
  retrieve_all_threads dict_str d
  = (Some (after_setup d),
     Ok (match elements (listed_threads d),
               thread_title_table (Some (after_setup d)) with
         | [], _ => []
         | _ :: _, Raise e =>
             [ {| thread_id := PNone;
                  messages := [];
                  thread_title := "Error: " +:+ str_exn e |} ]
         | ids, Ok _ =>
             map (fun id => thread_view dict_str (Some (after_setup d)) (PStr id))
                 ids
         end)).
Proof.
  unfold retrieve_all_threads, try_except.
  unfold bind at 1. rewrite list_thread_ids_run.
  fold (listed_threads d).
  rewrite (for_each_view _
             (fun id => thread_view dict_str (Some (after_setup d)) (PStr id))).
  - destruct (elements (listed_threads d)) as [| id ids]; [reflexivity |].
    destruct (thread_title_table (Some (after_setup d))); reflexivity.
  - intros id. unfold bind at 1. rewrite load_conversation_some.
    unfold bind at 1. rewrite select_thread_title_run.
    destruct (thread_title_table (Some (after_setup d))) as [t | e] eqn:Ht;
      cbn [res_bind]; [| reflexivity].
    apply thread_title_table_some in Ht. injection Ht as <-.
    unfold ret. do 2 f_equal.
    rewrite filter_thread_id_is_text.
    unfold thread_view. f_equal.
    apply (truthy_cell_resolved dict_str).
Qed.

(** Every listed thread carries the id of a known thread, or [None] in
    the error listing. *)
Lemma listing_thread_ids (dict_str : gmap string string -> string) (d : db)
      (listing : list thread) (th : thread) :
  snd (retrieve_all_threads dict_str d) = Ok listing ->
  th ∈ listing ->
  thread_id th = PNone \/ exists id, thread_id th = PStr id /\ known d id.
Proof.
  rewrite retrieve_all_threads_run. cbn [snd].
  generalize (thread_title_table (Some (after_setup d))). intros rt Hrun Hth.
  injection Hrun as <-.
  destruct (elements (listed_threads d)) as [| id0 ids] eqn:Hids.
  - exfalso. exact (not_elem_of_nil _ Hth).
  - destruct rt as [t | e].
    + right. apply list_elem_of_In in Hth.
      apply (proj1 (in_map_iff
                      (fun id => thread_view dict_str (Some (after_setup d))
                                             (PStr id))
                      (id0 :: ids) th)) in Hth.
      destruct Hth as (id & <- & Hid). exists id. split; [reflexivity |].
      apply elem_of_listed_threads, elem_of_elements.
      rewrite Hids. apply list_elem_of_In, Hid.
    + left. apply list_elem_of_singleton in Hth. subst th. reflexivity.
Qed.

Lemma known_after_delete (tid : pyval) (d : db) (id : string) :
  known (fst (delete_threads tid d)) id ->
  truthy tid = true ->
  known d id /\ id <> str tid.
Proof.
  rewrite delete_threads_run. intros Hknown Htruthy.
  rewrite Htruthy in Hknown. unfold known in Hknown.
  cbn [fst table_rows rows] in Hknown.
  apply list_elem_of_In, in_map_iff in Hknown.
  destruct Hknown as (r & <- & Hr).
  apply list_elem_of_In, list_elem_of_filter in Hr. destruct Hr as [Hne Hr].
  split; [| exact Hne].
  unfold known. apply list_elem_of_In, in_map, list_elem_of_In, Hr.
Qed.

(** C7. Deleting a thread reports success, leaves no row and no message
    of that thread, and no listing made afterwards carries its id.
    Deleting all threads (the default [None]) reports success with the
    number of distinct thread ids that the store held, leaves no row, and
    the listing made afterwards is empty. *)
Theorem delete_threads_effect (dict_str : gmap string string -> string)
        (tid : pyval) (d : db) :
  ((exists message, snd (delete_threads tid d) = Ok (true, message))
   /\ thread_rows (fst (delete_threads tid d)) (str tid) = []
   /\ snd (load_conversation tid (fst (delete_threads tid d))) = Ok []
   /\ exists listing,
        snd (retrieve_all_threads dict_str (fst (delete_threads tid d)))
        = Ok listing
        /\ forall th, th ∈ listing ->
             thread_id th <> tid /\ thread_id th <> PStr (str tid))
  /\
  (snd (delete_threads PNone d)
   = Ok (true, "Successfully deleted "
               +:+ pretty (length (distinct_thread_ids d))
               +:+ " conversations")
   /\ table_rows (fst (delete_threads PNone d)) = []
   /\ snd (retrieve_all_threads dict_str (fst (delete_threads PNone d)))
      = Ok []).
Proof.
  split.
  - destruct (truthy tid) eqn:Htruthy.
    + assert (Hgone : thread_rows (fst (delete_threads tid d)) (str tid) = []).
      { rewrite delete_threads_run, Htruthy. unfold thread_rows.
        cbn [fst table_rows rows]. apply filter_none, Forall_forall.
        intros r Hr. apply list_elem_of_filter in Hr. tauto. }
      split; [| split; [exact Hgone | split]].
      * rewrite delete_threads_run, Htruthy. eexists. reflexivity.
      * pose proof Hgone as Hrows. revert Hrows.
        rewrite delete_threads_run, Htruthy. cbn [fst]. intros Hrows.
        rewrite load_conversation_some. cbn [snd]. f_equal.
        unfold thread_rows in Hrows. cbn [table_rows] in Hrows.
        rewrite Hrows. reflexivity.
      * destruct (retrieve_all_threads dict_str (fst (delete_threads tid d)))
          as [d'' [listing | e]] eqn:Hrun.
        2: { rewrite retrieve_all_threads_run in Hrun. discriminate Hrun. }
        exists listing. split; [reflexivity |]. intros th Hth.
        destruct (listing_thread_ids dict_str (fst (delete_threads tid d))
                                     listing th)
          as [Hnone | (id & Hid & Hknown)];
          [rewrite Hrun; reflexivity | exact Hth | |].
        -- rewrite Hnone. split; [| discriminate].
           intros <-. discriminate Htruthy.
        -- rewrite Hid.
           destruct (known_after_delete tid d id Hknown Htruthy) as [_ Hne].
           split; [| congruence]. intros <-. apply Hne. reflexivity.
    + rewrite delete_threads_run, Htruthy. cbn [fst snd].
      split; [eexists; reflexivity |]. split; [reflexivity |].
      split; [reflexivity |].
      rewrite retrieve_all_threads_run. cbn [snd]. exists [].
      split; [reflexivity |]. intros th Hth.
      exfalso. exact (not_elem_of_nil _ Hth).
  - rewrite delete_threads_run. cbn [truthy fst snd table_rows rows].
    split; [reflexivity |]. split; [reflexivity |].
    rewrite retrieve_all_threads_run. cbn [snd]. reflexivity.
Qed.

Lemma delete_threads_effect_witness :
  let d := Some {| columns := Checkpointer.base_columns ++ ["thread_title"];
                   rows := [ {| r_thread_id := "t1";
                                r_thread_title := None;
                                r_checkpoint := [MObj Human "Hello"] |};
                             {| r_thread_id := "t2";
                                r_thread_title := Some "Trip";
                                r_checkpoint := [MObj Human "Flights?"] |};
                             {| r_thread_id := "t1";
                                r_thread_title := None;
                                r_checkpoint := [MObj Human "Hello";
                                                 MObj AI "Hi!"] |} ] |} in
  thread_rows (fst (delete_threads (PStr "t1") d)) "t1" = []
  /\ snd (delete_threads PNone d)
     = Ok (true, "Successfully deleted 2 conversations").
Proof.
  intros d.
  destruct (delete_threads_effect (fun _ => "") (PStr "t1") d)
    as [(_ & Hone & _) (Hall & _)].
  split; [exact Hone | exact Hall].
Defined.

(** ** Adding the title column *)

Lemma existsb_eqb_elem_of (name : string) (cols : list string) :
  existsb (String.eqb name) cols = true <-> name ∈ cols.
Proof.
  rewrite existsb_exists, list_elem_of_In. split.
  - intros (c & Hc & Heq). apply String.eqb_eq in Heq. now subst c.
  - intros Hin. exists name. split; [exact Hin | apply String.eqb_refl].
Qed.

(** What [add_column_to_checkpoints_table] does. *)
Lemma add_column_run (column_name column_type : string) (d : db) :
  add_column_to_checkpoints_table column_name column_type d
  = match d with
    | None => (None, Ok (false, "Table 'checkpoints' not created yet."))
    | Some t =>
        if existsb (String.eqb column_name) (columns t) then
          (Some t, Ok (true, "Column '" +:+ column_name +:+ "' already exists."))
        else
          (Some {| columns := columns t ++ [column_name];
                   rows := if String.eqb column_name "thread_title"
                           then map (fun r => {| r_thread_id := r_thread_id r;
                                                 r_thread_title := None;
                                                 r_checkpoint := r_checkpoint r |})
                                    (rows t)
                           else rows t |},
           Ok (true, "Column '" +:+ column_name +:+ "' added successfully."))
    end.
Proof.
  cbv [add_column_to_checkpoints_table try_except bind
       select_table_checkpoints pragma_table_info alter_table_add_column
       get ret put raise commit].
  destruct d as [t |]; [| reflexivity].
  destruct (existsb (String.eqb column_name) (columns t)) eqn:Hcol;
    cbn [negb]; [reflexivity |].
  rewrite Hcol. reflexivity.
Qed.

(** C8. On a store whose table exists, adding the [thread_title] column
    twice reports success both times; the first call leaves the column in
    the table (adding it only when it is missing, so the [ALTER], which
    fails on a column that is there, is not run then), the second call
    finds it and leaves the store as the first call left it. While the
    table does not exist the call changes nothing and returns [False] with
    its message instead of raising. *)
Theorem add_thread_title_column_twice (t : table) :
  let first := add_column_to_checkpoints_table "thread_title" "TEXT" (Some t) in
  let second := add_column_to_checkpoints_table "thread_title" "TEXT" (fst first) in
  (exists message, snd first = Ok (true, message))
  /\ snd second = Ok (true, "Column 'thread_title' already exists.")
  /\ fst second = fst first
  /\ (exists t1, fst first = Some t1 /\ "thread_title" ∈ columns t1)
  /\ ("thread_title" ∈ columns t ->
      first = (Some t, Ok (true, "Column 'thread_title' already exists."))
      /\ snd (alter_table_add_column "thread_title" "TEXT" (Some t))
         = Raise (Exn OperationalError "duplicate column name: thread_title"))
  /\ ("thread_title" ∉ columns t ->
      snd first = Ok (true, "Column 'thread_title' added successfully.")
      /\ exists t1, fst first = Some t1
                    /\ columns t1 = (columns t ++ ["thread_title"])%list)
  /\ add_column_to_checkpoints_table "thread_title" "TEXT" None
     = (None, Ok (false, "Table 'checkpoints' not created yet.")).
Proof.
  cbv zeta. rewrite !add_column_run.
  destruct (existsb (String.eqb "thread_title") (columns t)) eqn:Hcol.
  - cbn [fst snd]. rewrite Hcol. cbn [fst snd].
    split; [eexists; reflexivity |]. split; [reflexivity |].
    split; [reflexivity |].
    split; [exists t; split; [reflexivity | now apply existsb_eqb_elem_of] |].
    split; [| split; [| reflexivity]].
    + intros _. split; [reflexivity |].
      unfold alter_table_add_column, bind, get, raise. rewrite Hcol. reflexivity.
    + intros Hnot. exfalso. apply Hnot. now apply existsb_eqb_elem_of.
  - assert (Hnew : existsb (String.eqb "thread_title")
                           (columns t ++ ["thread_title"]) = true).
    { rewrite existsb_app. apply orb_true_r. }
    cbn [fst snd columns]. rewrite Hnew. cbn [fst snd].
    split; [eexists; reflexivity |]. split; [reflexivity |].
    split; [reflexivity |].
    split; [eexists; split; [reflexivity | now apply existsb_eqb_elem_of] |].
    split; [| split; [| reflexivity]].
    + intros Hin. apply existsb_eqb_elem_of in Hin. congruence.
    + intros _. split; [reflexivity |]. eexists. split; reflexivity.
Qed.

Lemma add_thread_title_column_twice_witness :
  let d := Some {| columns := Checkpointer.base_columns; rows := [] |} in
  let first := add_column_to_checkpoints_table "thread_title" "TEXT" d in
  snd first = Ok (true, "Column 'thread_title' added successfully.")
  /\ add_column_to_checkpoints_table "thread_title" "TEXT" (fst first)
     = (fst first, Ok (true, "Column 'thread_title' already exists.")).
Proof.
  intros d first.
  destruct (add_thread_title_column_twice
              {| columns := Checkpointer.base_columns; rows := [] |})
    as (_ & Hsecond & Hsame & _ & _ & Hadd & _).
  split.
  - apply Hadd. intros Hin. apply existsb_eqb_elem_of in Hin.
    vm_compute in Hin. discriminate Hin.
  - fold d in Hsecond, Hsame. fold first in Hsecond, Hsame.
    rewrite (surjective_pairing (add_column_to_checkpoints_table _ _ _)).
    now rewrite Hsecond, Hsame.
Defined.

(** ** The titles of the listing *)

Lemma thread_view_after_setup (dict_str : gmap string string -> string)
      (d : db) (v : pyval) :
  thread_view dict_str (Some (after_setup d)) v = thread_view dict_str d v.
Proof.
  unfold thread_view, thread_messages, stored_title, thread_rows.
  cbn [table_rows]. now rewrite table_rows_after_setup.
Qed.

Lemma thread_title_table_after_setup (d : db) (e : exn) :
  thread_title_table (Some (after_setup d)) = Raise e ->
  titles_readable d -> table_rows d = [].
Proof.
  intros Hraise [Hrows | [t Ht]]; [exact Hrows |].
  pose proof (thread_title_table_some _ _ Ht) as ->.
  cbn [after_setup] in Hraise. congruence.
Qed.

Lemma listed_threads_no_rows (d : db) :
  table_rows d = [] -> elements (listed_threads d) = [].
Proof.
  intros Hrows. unfold listed_threads. rewrite Hrows. apply elements_empty.
Qed.

(** Counterexample to C9 as stated. A thread whose stored title is the
    default ["New Chat"] and which has the message ["Hello"] is listed
    with its stored title, not with the title derived from its first
    message. *)
Lemma listing_keeps_stored_new_chat :
  ~ (forall (dict_str : gmap string string -> string) (d : db)
            (listing : list thread) (th : thread),
        snd (retrieve_all_threads dict_str d) = Ok listing ->
        th ∈ listing ->
        thread_title th
        = claimed_title dict_str (stored_title d (str (thread_id th)))
                        (messages th)).
Proof.
  intros Hclaim.
  specialize (Hclaim (fun _ => "")
    (Some {| columns := Checkpointer.base_columns ++ ["thread_title"];
             rows := [ {| r_thread_id := "t1";
                          r_thread_title := Some "New Chat";
                          r_checkpoint := [MObj Human "Hello"] |} ] |})
    [ {| thread_id := PStr "t1";
         messages := [MObj Human "Hello"];
         thread_title := "New Chat" |} ]
    {| thread_id := PStr "t1";
       messages := [MObj Human "Hello"];
       thread_title := "New Chat" |}
    eq_refl (list_elem_of_here _ _)).
  vm_compute in Hclaim. discriminate Hclaim.
Qed.

(** An empty stored title, in turn, is passed over: the title comes from
    the first message. *)
Lemma listing_skips_empty_stored_title :
  snd (retrieve_all_threads (fun _ => "")
         (Some {| columns := Checkpointer.base_columns ++ ["thread_title"];
                  rows := [ {| r_thread_id := "t1";
                               r_thread_title := Some "";
                               r_checkpoint := [MObj Human "Hello"] |} ] |}))
  = Ok [ {| thread_id := PStr "t1";
            messages := [MObj Human "Hello"];
            thread_title := "Hello" |} ].
Proof. vm_compute. reflexivity. Qed.

(** When the titles can be read the listing has one thread per listed id. *)
Lemma retrieve_all_threads_readable (dict_str : gmap string string -> string)
      (d : db) :
  titles_readable d ->
  retrieve_all_threads dict_str d
  = (Some (after_setup d),
     Ok (map (fun id => thread_view dict_str d (PStr id))
             (elements (listed_threads d)))).
Proof.
  intros Hread. rewrite retrieve_all_threads_run. do 2 f_equal.
  destruct (thread_title_table (Some (after_setup d))) as [t | e] eqn:Ht.
  - destruct (elements (listed_threads d)) as [| id ids]; [reflexivity |].
    apply map_ext. intros id'. apply thread_view_after_setup.
  - rewrite (listed_threads_no_rows d); [reflexivity |].
    exact (thread_title_table_after_setup d e Ht Hread).
Qed.

(** C9, amended. When the titles can be read, the listing holds every
    known thread id exactly once, with the messages of the thread, and
    the title of each is the stored title when that is there and not
    empty, else the title derived from the first message, else
    ["New Chat"]. *)
Theorem retrieve_all_threads_listing (dict_str : gmap string string -> string)
        (d : db) :
  titles_readable d ->
  exists listing,
    retrieve_all_threads dict_str d = (Some (after_setup d), Ok listing)
    /\ NoDup (map thread_id listing)
    /\ (forall id, known d id <-> PStr id ∈ map thread_id listing)
    /\ (forall th, th ∈ listing ->
          exists id,
            known d id
            /\ thread_id th = PStr id
            /\ messages th = thread_messages d id
            /\ thread_title th
               = resolved_title dict_str (stored_title d id) (messages th)).
Proof.
  intros Hread. eexists. split; [apply retrieve_all_threads_readable, Hread |].
  assert (Hids : map thread_id
                     (map (fun id => thread_view dict_str d (PStr id))
                          (elements (listed_threads d)))
                 = map PStr (elements (listed_threads d))).
  { rewrite map_map. reflexivity. }
  split; [| split].
  - rewrite Hids.
    change (NoDup (PStr <$> elements (listed_threads d))).
    apply NoDup_fmap_2; [| apply NoDup_elements].
    intros x y [= ->]. reflexivity.
  - intros id. rewrite Hids, <- elem_of_listed_threads, <- elem_of_elements.
    rewrite !list_elem_of_In, in_map_iff. split.
    + intros Hin. exists id. split; [reflexivity | exact Hin].
    + intros (id' & [= ->] & Hin). exact Hin.
  - intros th Hth. apply list_elem_of_In, in_map_iff in Hth.
    destruct Hth as (id & <- & Hin). exists id.
    split; [| repeat split].
    apply elem_of_listed_threads, elem_of_elements, list_elem_of_In, Hin.
Qed.

Lemma retrieve_all_threads_listing_witness :
  snd (retrieve_all_threads (fun _ => "")
         (Some {| columns := Checkpointer.base_columns ++ ["thread_title"];
                  rows := [ {| r_thread_id := "t1";
                               r_thread_title := Some "New Chat";
                               r_checkpoint := [MObj Human "Hello"] |};
                            {| r_thread_id := "t1";
                               r_thread_title := None;
                               r_checkpoint := [MObj Human "Hello";
                                                MObj AI "Hi!"] |} ] |}))
  = Ok [ {| thread_id := PStr "t1";
            messages := [MObj Human "Hello"; MObj AI "Hi!"];
            thread_title := "New Chat" |} ].
Proof.
  destruct (retrieve_all_threads_listing (fun _ => "")
              (Some {| columns := Checkpointer.base_columns ++ ["thread_title"];
                       rows := [ {| r_thread_id := "t1";
                                    r_thread_title := Some "New Chat";
                                    r_checkpoint := [MObj Human "Hello"] |};
                                 {| r_thread_id := "t1";
                                    r_thread_title := None;
                                    r_checkpoint := [MObj Human "Hello";
                                                     MObj AI "Hi!"] |} ] |}))
    as (listing & Hrun & _).
  - right. eexists. reflexivity.
  - rewrite Hrun. cbn [snd]. f_equal.
    apply (f_equal snd) in Hrun. cbn [snd] in Hrun.
    vm_compute in Hrun. injection Hrun as <-. reflexivity.
Defined.

(** ** The default argument of [delete_threads] *)

(** C10. A falsy [thread_id] (of the values a thread id is taken from
    here these are [None], the empty text and [0]) takes the branch that
    deletes every thread: the call does what [delete_threads(None)] does,
    reports the number of threads deleted and leaves no row. *)
Theorem delete_threads_falsy (tid : pyval) (d : db) :
  truthy tid = false ->
  (tid = PNone \/ tid = PStr "" \/ tid = PInt 0)
  /\ delete_threads tid d = delete_threads PNone d
  /\ snd (delete_threads tid d)
     = Ok (true, "Successfully deleted "
                 +:+ pretty (length (distinct_thread_ids d))
                 +:+ " conversations")
  /\ table_rows (fst (delete_threads tid d)) = [].
Proof.
  intros Hfalsy. split.
  - destruct tid as [| z | s | u]; simpl in Hfalsy.
    + left. reflexivity.
    + right. right. apply negb_false_iff, Z.eqb_eq in Hfalsy. now subst z.
    + right. left. apply negb_false_iff, String.eqb_eq in Hfalsy. now subst s.
    + discriminate Hfalsy.
  - rewrite !delete_threads_run, Hfalsy. cbn [truthy fst snd table_rows rows].
    repeat split.
Qed.

Lemma delete_threads_falsy_witness :
  let d := Some {| columns := Checkpointer.base_columns ++ ["thread_title"];
                   rows := [ {| r_thread_id := "t1";
                                r_thread_title := None;
                                r_checkpoint := [MObj Human "Hello"] |};
                             {| r_thread_id := "t2";
                                r_thread_title := Some "Trip";
                                r_checkpoint := [MObj Human "Flights?"] |} ] |} in
  truthy (PStr "") = false
  /\ delete_threads (PStr "") d
     = (Some {| columns := Checkpointer.base_columns ++ ["thread_title"];
                rows := [] |},
        Ok (true, "Successfully deleted 2 conversations")).
Proof.
  intros d. split; [reflexivity |].
  destruct (delete_threads_falsy (PStr "") d eq_refl) as (_ & Hsame & _).
  rewrite Hsame. reflexivity.
Defined.

(** * Further properties of the code *)

(** ** The calculator's two shapes *)

(** X1. Whatever the operands and the operation text, the dict that the
    calculator returns has exactly one of the keys ["error"] and
    ["result"]: the error shape exactly when the operation is not one of
    the four or is a division by zero, the result shape otherwise. *)
Theorem calculator_error_xor_result (a b : float) (operation : string) :
  (is_Some (calculator a b operation !! "error")
   /\ calculator a b operation !! "result" = None
   /\ (~ is_supported operation
       \/ (operation = "div" /\ PrimFloat.eqb b 0%float = true)))
  \/
  (calculator a b operation !! "error" = None
   /\ is_Some (calculator a b operation !! "result")
   /\ calculator a b operation !! "operation" = Some (VStr operation)
   /\ is_supported operation
   /\ ~ (operation = "div" /\ PrimFloat.eqb b 0%float = true)).
Proof.
  unfold calculator, calculator_try.
  destruct (String.eqb_spec operation "add") as [-> | Hadd].
  { right. cbn [String.eqb Ascii.eqb Bool.eqb].
    repeat split; try reflexivity; try (eexists; reflexivity).
    - exists Add. reflexivity.
    - intros [Hdiv _]. discriminate Hdiv. }
  destruct (String.eqb_spec operation "sub") as [-> | Hsub].
  { right. repeat split; try reflexivity; try (eexists; reflexivity).
    - exists Sub. reflexivity.
    - intros [Hdiv _]. discriminate Hdiv. }
  destruct (String.eqb_spec operation "mul") as [-> | Hmul].
  { right. repeat split; try reflexivity; try (eexists; reflexivity).
    - exists Mul. reflexivity.
    - intros [Hdiv _]. discriminate Hdiv. }
  destruct (String.eqb_spec operation "div") as [-> | Hdiv].
  { destruct (PrimFloat.eqb b 0%float) eqn:Hz.
    - left. split; [eexists; reflexivity |]. split; [reflexivity |].
      right. split; reflexivity.
    - right. unfold float_truediv. rewrite Hz. cbn [res_bind].
      repeat split; try reflexivity; try (eexists; reflexivity).
      + exists Div. reflexivity.
      + intros [_ Hzero]. discriminate Hzero. }
  left. split; [eexists; reflexivity |]. split; [reflexivity |].
  left. intros [[| | |] Hop]; cbn [tag] in Hop; congruence.
Qed.

(** ** The length of an automatic title *)

Lemma length_append (s1 s2 : string) :
  String.length (s1 +:+ s2) = String.length s1 + String.length s2.
Proof.
  induction s1 as [| c s1 IH]; [reflexivity |].
  change (S (String.length (s1 +:+ s2))
          = S (String.length s1 + String.length s2)).
  now rewrite IH.
Qed.

Lemma slice_to_append (s1 s2 : string) :
  slice_to (String.length s1) (s1 +:+ s2) = s1.
Proof.
  induction s1 as [| c s1 IH]; [reflexivity |].
  change (String c (slice_to (String.length s1) (s1 +:+ s2)) = String c s1).
  now rewrite IH.
Qed.

(** X2. An automatic title has at most 23 characters, it starts as the
    text starts, and deriving a title from a title gives that title
    again. *)
Theorem auto_title_bounded (x : string) :
  String.length (auto_title x) <= 23
  /\ slice_to 20 (auto_title x) = slice_to 20 x
  /\ auto_title (auto_title x) = auto_title x.
Proof.
  destruct (Nat.ltb_spec 20 (String.length x)) as [Hlong | Hshort].
  - assert (Hlen : String.length (slice_to 20 x) = 20)
      by (apply length_slice_to; lia).
    assert (Hcut : slice_to 20 (slice_to 20 x +:+ "...") = slice_to 20 x).
    { rewrite <- Hlen at 1. apply slice_to_append. }
    assert (Htitle : auto_title x = slice_to 20 x +:+ "...").
    { unfold auto_title.
      destruct (Nat.ltb_spec 20 (String.length x)); [reflexivity | lia]. }
    rewrite Htitle.
    split; [rewrite length_append, Hlen; simpl; lia |].
    split; [exact Hcut |].
    unfold auto_title. rewrite length_append, Hlen.
    change (20 <? 20 + String.length "...")%nat with true.
    now rewrite Hcut.
  - assert (Htitle : auto_title x = x).
    { unfold auto_title.
      destruct (Nat.ltb_spec 20 (String.length x)); [lia | reflexivity]. }
    rewrite !Htitle. split; [lia |]. split; reflexivity.
Qed.

(** ** Lookup and listing *)

(** X3. Every entry of the listing is what [get_thread_by_id] returns for
    the thread id of the entry (the error entry included), and the lookup
    leaves the store as it is. *)
Theorem listing_agrees_with_lookup (dict_str : gmap string string -> string)
        (d : db) (listing : list thread) (th : thread) :
  snd (retrieve_all_threads dict_str d) = Ok listing ->
  th ∈ listing ->
  get_thread_by_id dict_str (thread_id th) d = (d, Ok th).
Proof.
  intros Hrun Hth. rewrite get_thread_by_id_run.
  rewrite retrieve_all_threads_run in Hrun. cbn [snd] in Hrun.
  destruct d as [t |].
  2: { rewrite (listed_threads_no_rows None eq_refl) in Hrun.
       injection Hrun as <-. exfalso. exact (not_elem_of_nil _ Hth). }
  - cbn [after_setup] in Hrun.
    destruct (thread_title_table (Some t)) as [t' | e].
    + destruct (elements (listed_threads (Some t))) as [| id0 ids].
      { injection Hrun as <-. exfalso. exact (not_elem_of_nil _ Hth). }
      injection Hrun as <-. apply list_elem_of_In in Hth.
      apply (proj1 (in_map_iff
                      (fun id => thread_view dict_str (Some t) (PStr id))
                      (id0 :: ids) th)) in Hth.
      destruct Hth as (id & <- & _). reflexivity.
    + destruct (elements (listed_threads (Some t))) as [| id0 ids].
      { injection Hrun as <-. exfalso. exact (not_elem_of_nil _ Hth). }
      injection Hrun as <-. apply list_elem_of_singleton in Hth. subst th.
      reflexivity.
Qed.

Lemma listing_agrees_with_lookup_witness :
  get_thread_by_id (fun _ => "") (PStr "t2")
    (Some {| columns := Checkpointer.base_columns ++ ["thread_title"];
             rows := [ {| r_thread_id := "t1";
                          r_thread_title := None;
                          r_checkpoint := [MObj Human "Hello"] |};
                       {| r_thread_id := "t2";
                          r_thread_title := Some "Trip";
                          r_checkpoint := [MObj Human "Flights?"] |} ] |})
  = (Some {| columns := Checkpointer.base_columns ++ ["thread_title"];
             rows := [ {| r_thread_id := "t1";
                          r_thread_title := None;
                          r_checkpoint := [MObj Human "Hello"] |};
                       {| r_thread_id := "t2";
                          r_thread_title := Some "Trip";
                          r_checkpoint := [MObj Human "Flights?"] |} ] |},
     Ok {| thread_id := PStr "t2";
           messages := [MObj Human "Flights?"];
           thread_title := "Trip" |}).
Proof.
  eapply (listing_agrees_with_lookup (fun _ => "") _ _
            {| thread_id := PStr "t2";
               messages := [MObj Human "Flights?"];
               thread_title := "Trip" |}).
  - vm_compute. reflexivity.
  - right. left.
Defined.

(** ** A table without the title column *)

Lemma thread_title_table_unreadable (d : db) :
  (forall t, d = Some t -> "thread_title" ∉ columns t) ->
  thread_title_table d
  = Raise (match d with
           | Some _ => no_such_column "thread_title"
           | None => no_such_table
           end).
Proof.
  intros Hcol. destruct d as [t |]; [| reflexivity].
  unfold thread_title_table.
  destruct (existsb _ (columns t)) eqn:Hex; [| reflexivity].
  exfalso. apply (Hcol t eq_refl). now apply existsb_eqb_elem_of.
Qed.

(** X4. While the table or its title column is missing, a lookup reports
    no messages and a title that starts with ["Error: "], also for a
    thread that has messages; the title step of the frontend then renames
    nothing; and a rename fails with the same reason in its message. The
    store is left as it is by all three. *)
Theorem without_title_column (dict_str : gmap string string -> string)
        (tid : pyval) (s new_title : string) (d : db) :
  (forall t, d = Some t -> "thread_title" ∉ columns t) ->
  exists reason,
    get_thread_by_id dict_str tid d
    = (d, Ok {| thread_id := tid;
                messages := [];
                thread_title := "Error: " +:+ reason |})
    /\ title_step dict_str tid s d = (d, Ok None)
    /\ update_thread_title tid new_title d
       = (d, Ok (false, "Error updating thread title for ID '" +:+ str tid
                        +:+ "': " +:+ reason)).
Proof.
  intros Hcol. pose proof (thread_title_table_unreadable d Hcol) as Ht.
  eexists. split; [| split].
  - rewrite get_thread_by_id_run, Ht. reflexivity.
  - unfold title_step, bind. rewrite get_thread_by_id_run, Ht.
    cbn [thread_title].
    change (String.eqb ("Error: " +:+ _) "New Chat") with false.
    reflexivity.
  - rewrite update_thread_title_run, Ht. reflexivity.
Qed.

Lemma without_title_column_witness :
  title_step (fun _ => "") (PStr "t1") "Hello"
    (Some {| columns := Checkpointer.base_columns;
             rows := [ {| r_thread_id := "t1";
                          r_thread_title := None;
                          r_checkpoint := [] |} ] |})
  = (Some {| columns := Checkpointer.base_columns;
             rows := [ {| r_thread_id := "t1";
                          r_thread_title := None;
                          r_checkpoint := [] |} ] |},
     Ok None).
Proof.
  destruct (without_title_column (fun _ => "") (PStr "t1") "Hello" "Hello"
              (Some {| columns := Checkpointer.base_columns;
                       rows := [ {| r_thread_id := "t1";
                                    r_thread_title := None;
                                    r_checkpoint := [] |} ] |}))
    as (reason & _ & Hstep & _).
  - intros t [= <-] Hin. apply existsb_eqb_elem_of in Hin.
    vm_compute in Hin. discriminate Hin.
  - exact Hstep.
Defined.

Lemma elements_listed_threads_rows (d : db) :
  table_rows d <> [] -> elements (listed_threads d) <> [].
Proof.
  intros Hrows Hnil. destruct (table_rows d) as [| r l] eqn:Hd; [congruence |].
  assert (Hin : r_thread_id r ∈ elements (listed_threads d)).
  { apply elem_of_elements, elem_of_listed_threads. unfold known.
    rewrite Hd. left. }
  rewrite Hnil in Hin. exact (not_elem_of_nil _ Hin).
Qed.

Lemma retrieve_all_threads_error_entry
      (dict_str : gmap string string -> string) (t : table) :
  "thread_title" ∉ columns t ->
  rows t <> [] ->
  retrieve_all_threads dict_str (Some t)
  = (Some t,
     Ok [ {| thread_id := PNone;
             messages := [];
             thread_title := "Error: no such column: thread_title" |} ]).
Proof.
  intros Hcol Hrows. rewrite retrieve_all_threads_run. cbn [after_setup].
  rewrite (thread_title_table_unreadable (Some t))
    by (intros t' [= <-]; exact Hcol).
  destruct (elements (listed_threads (Some t))) as [| id ids] eqn:Hids.
  - exfalso. exact (elements_listed_threads_rows (Some t) Hrows Hids).
  - reflexivity.
Qed.

(** X5. On a table that has rows but no title column the listing is the
    single error entry, whose thread id is [None] and which has no
    messages: no thread of the store is listed, and the store is left as
    it is. *)
Theorem listing_without_title_column (dict_str : gmap string string -> string)
        (t : table) :
  "thread_title" ∉ columns t ->
  rows t <> [] ->
  retrieve_all_threads dict_str (Some t)
  = (Some t,
     Ok [ {| thread_id := PNone;
             messages := [];
             thread_title := "Error: no such column: thread_title" |} ]).
Proof. apply retrieve_all_threads_error_entry. Qed.

Lemma listing_without_title_column_witness :
  snd (retrieve_all_threads (fun _ => "")
         (Some {| columns := Checkpointer.base_columns;
                  rows := [ {| r_thread_id := "t1";
                               r_thread_title := None;
                               r_checkpoint := [MObj Human "Hello"] |} ] |}))
  = Ok [ {| thread_id := PNone;
            messages := [];
            thread_title := "Error: no such column: thread_title" |} ].
Proof.
  rewrite listing_without_title_column.
  - reflexivity.
  - intros Hin. apply existsb_eqb_elem_of in Hin.
    vm_compute in Hin. discriminate Hin.
  - discriminate.
Defined.

(** ** Renaming, further *)

Lemma thread_id_is_ext (v : sqlval) (r1 r2 : row) :
  r_thread_id r1 = r_thread_id r2 -> thread_id_is v r1 = thread_id_is v r2.
Proof. intros Heq. destruct v; simpl; now rewrite ?Heq. Qed.

Lemma thread_id_is_retitle (v v' : sqlval) (new_title : string) (r : row) :
  thread_id_is v (retitle v' new_title r) = thread_id_is v r.
Proof. apply thread_id_is_ext, retitle_thread_id. Qed.

Lemma filter_thread_id_is_retitle (v v' : sqlval) (new_title : string)
      (l : list row) :
  filter (fun r => thread_id_is v r = true) (map (retitle v' new_title) l)
  = map (retitle v' new_title) (filter (fun r => thread_id_is v r = true) l).
Proof.
  induction l as [| r l IH]; [reflexivity |].
  cbn [map]. rewrite !filter_cons, thread_id_is_retitle.
  destruct (decide (thread_id_is v r = true)); cbn [map]; now rewrite IH.
Qed.

Lemma thread_title_table_same_columns (t : table) (l : list row) :
  thread_title_table (Some t) = Ok t ->
  thread_title_table (Some {| columns := columns t; rows := l |})
  = Ok {| columns := columns t; rows := l |}.
Proof.
  unfold thread_title_table. cbn [columns].
  destruct (existsb _ (columns t)); [reflexivity | discriminate].
Qed.

Lemma thread_title_table_column (t : table) :
  "thread_title" ∈ columns t -> thread_title_table (Some t) = Ok t.
Proof.
  intros Hcol. unfold thread_title_table.
  now rewrite (proj2 (existsb_eqb_elem_of _ _) Hcol).
Qed.

Lemma known_thread_rows (d : db) (id : string) :
  known d id -> thread_rows d id <> [].
Proof.
  unfold known, thread_rows. intros Hknown Hnil.
  apply list_elem_of_In, in_map_iff in Hknown.
  destruct Hknown as (r & Hid & Hr).
  apply (filter_nil_not_elem_of _ _ r Hnil Hid), list_elem_of_In, Hr.
Qed.

(** X6. Renaming a known thread by its text id, on a table that has the
    title column, reports success; the lookup of the thread and the
    listing then show the thread with its messages and the new title, or,
    when the new title is the empty text, with the title derived from its
    first message. *)
Theorem rename_then_lookup (dict_str : gmap string string -> string)
        (id new_title : string) (t : table) :
  "thread_title" ∈ columns t ->
  known (Some t) id ->
  let d' := fst (update_thread_title (PStr id) new_title (Some t)) in
  let shown :=
    {| thread_id := PStr id;
       messages := thread_messages (Some t) id;
       thread_title :=
         if String.eqb new_title ""
         then first_message_title dict_str (thread_messages (Some t) id)
         else new_title |} in
  snd (update_thread_title (PStr id) new_title (Some t))
  = Ok (true, "Thread title updated successfully for ID: " +:+ id)
  /\ get_thread_by_id dict_str (PStr id) d' = (d', Ok shown)
  /\ exists listing,
       snd (retrieve_all_threads dict_str d') = Ok listing /\ shown ∈ listing.
Proof.
  intros Hcol Hknown. cbv zeta.
  pose proof (thread_title_table_column t Hcol) as Ht.
  pose proof (known_thread_rows _ _ Hknown) as Hrows.
  unfold thread_rows in Hrows. cbn [table_rows] in Hrows.
  rewrite <- filter_thread_id_is_text in Hrows.
  rewrite update_thread_title_run, Ht. cbn [bind_param fst snd str].
  set (d' := Some {| columns := columns t;
                     rows := map (retitle (SqlText id) new_title) (rows t) |}).
  assert (Ht' : exists t', thread_title_table d' = Ok t')
    by (eexists; apply thread_title_table_same_columns, Ht).
  assert (Hview : thread_view dict_str d' (PStr id)
                  = {| thread_id := PStr id;
                       messages := thread_messages (Some t) id;
                       thread_title :=
                         if String.eqb new_title ""
                         then first_message_title dict_str
                                (thread_messages (Some t) id)
                         else new_title |}).
  { unfold thread_view, d'. cbn [str].
    rewrite (retitle_thread_messages (SqlText id) new_title t id).
    pose proof (retitle_stored_title (SqlText id) new_title t (PStr id)
                  eq_refl Hrows) as Hstored.
    cbn [str] in Hstored. rewrite Hstored. reflexivity. }
  split; [| split].
  - destruct (filter _ (rows t)); [congruence | reflexivity].
  - rewrite get_thread_by_id_run. destruct Ht' as [t' ->]. now rewrite Hview.
  - rewrite retrieve_all_threads_readable by (right; exact Ht').
    cbn [snd]. eexists. split; [reflexivity |].
    rewrite <- Hview. apply list_elem_of_In.
    apply (in_map (fun id0 => thread_view dict_str d' (PStr id0))).
    apply list_elem_of_In, elem_of_elements, elem_of_listed_threads.
    unfold known, d'. cbn [table_rows rows].
    rewrite map_retitle_thread_id. exact Hknown.
Qed.

Lemma rename_then_lookup_witness :
  get_thread_by_id (fun _ => "") (PStr "t1")
    (fst (update_thread_title (PStr "t1") "Greetings"
            (Some {| columns := Checkpointer.base_columns ++ ["thread_title"];
                     rows := [ {| r_thread_id := "t1";
                                  r_thread_title := Some "Old";
                                  r_checkpoint := [MObj Human "Hello"] |} ] |})))
  = (Some {| columns := Checkpointer.base_columns ++ ["thread_title"];
             rows := [ {| r_thread_id := "t1";
                          r_thread_title := Some "Greetings";
                          r_checkpoint := [MObj Human "Hello"] |} ] |},
     Ok {| thread_id := PStr "t1";
           messages := [MObj Human "Hello"];
           thread_title := "Greetings" |}).
Proof.
  apply (rename_then_lookup (fun _ => "") "t1" "Greetings"
           {| columns := Checkpointer.base_columns ++ ["thread_title"];
              rows := [ {| r_thread_id := "t1";
                           r_thread_title := Some "Old";
                           r_checkpoint := [MObj Human "Hello"] |} ] |}).
  - apply existsb_eqb_elem_of. reflexivity.
  - unfold known. cbn. left.
Defined.

Lemma retitle_retitle (v : sqlval) (title1 title2 : string) (r : row) :
  retitle v title2 (retitle v title1 r) = retitle v title2 r.
Proof.
  unfold retitle at 1 3. rewrite thread_id_is_retitle.
  destruct (thread_id_is v r) eqn:Hm; unfold retitle; rewrite Hm; reflexivity.
Qed.

(** X7. The last rename wins: renaming a thread and then renaming it again
    leaves the store, and returns the pair, of the second rename alone. *)
Theorem rename_twice (tid : pyval) (title1 title2 : string) (d : db) :
  update_thread_title tid title2 (fst (update_thread_title tid title1 d))
  = update_thread_title tid title2 d.
Proof.
  rewrite (update_thread_title_run tid title1 d).
  destruct (thread_title_table d) as [t | e] eqn:Ht; [| reflexivity].
  destruct (bind_param 2 tid) as [v | e] eqn:Hv; [| reflexivity].
  pose proof (thread_title_table_some _ _ Ht) as ->.
  cbn [fst]. rewrite !update_thread_title_run, Hv, Ht.
  rewrite (thread_title_table_same_columns t _ Ht). cbn [columns rows].
  rewrite filter_thread_id_is_retitle, length_map, map_map.
  do 3 f_equal. apply map_ext, retitle_retitle.
Qed.

Lemma retitle_swap (va vb : sqlval) (ta tb : string) (r : row) :
  ~ (thread_id_is va r = true /\ thread_id_is vb r = true) ->
  retitle va ta (retitle vb tb r) = retitle vb tb (retitle va ta r).
Proof.
  intros Hnot. unfold retitle at 1 3. rewrite !thread_id_is_retitle.
  destruct (thread_id_is va r) eqn:Ha, (thread_id_is vb r) eqn:Hb;
    unfold retitle; rewrite ?Ha, ?Hb; try reflexivity.
  exfalso. apply Hnot. split; reflexivity.
Qed.

(** X8. Renames of two threads with different ids commute: the store is
    the same whichever comes first. *)
Theorem rename_commute (a b : pyval) (ta tb : string) (d : db) :
  str a <> str b ->
  fst (update_thread_title a ta (fst (update_thread_title b tb d)))
  = fst (update_thread_title b tb (fst (update_thread_title a ta d))).
Proof.
  intros Hab.
  rewrite (update_thread_title_run b tb d), (update_thread_title_run a ta d).
  destruct (thread_title_table d) as [t | e] eqn:Ht.
  2: { cbn [fst]. rewrite !update_thread_title_run, Ht. reflexivity. }
  pose proof (thread_title_table_some _ _ Ht) as ->.
  destruct (bind_param 2 a) as [va | ea] eqn:Ha;
    destruct (bind_param 2 b) as [vb | eb] eqn:Hb;
    cbn [fst]; rewrite !update_thread_title_run, ?Ha, ?Hb, ?Ht,
                 ?(thread_title_table_same_columns t _ Ht);
    try reflexivity.
  cbn [fst columns rows]. rewrite !map_map. do 2 f_equal.
  apply map_ext. intros r. apply retitle_swap. intros [Hma Hmb].
  apply Hab.
  rewrite <- (bind_param_target _ _ _ _ Ha Hma).
  exact (bind_param_target _ _ _ _ Hb Hmb).
Qed.

Lemma rename_commute_witness :
  let d := Some {| columns := Checkpointer.base_columns ++ ["thread_title"];
                   rows := [ {| r_thread_id := "t1";
                                r_thread_title := None;
                                r_checkpoint := [MObj Human "Hello"] |};
                             {| r_thread_id := "t2";
                                r_thread_title := None;
                                r_checkpoint := [MObj Human "Flights?"] |} ] |} in
  fst (update_thread_title (PStr "t1") "A"
         (fst (update_thread_title (PStr "t2") "B" d)))
  = fst (update_thread_title (PStr "t2") "B"
           (fst (update_thread_title (PStr "t1") "A" d))).
Proof.
  intros d. apply (rename_commute (PStr "t1") (PStr "t2") "A" "B" d).
  discriminate.
Defined.

(** ** Deleting, further *)

Lemma load_conversation_run (thread_id : pyval) (d : db) :
  load_conversation thread_id d
  = (Some (after_setup d), Ok (thread_messages d (str thread_id))).
Proof. destruct d; reflexivity. Qed.

Lemma thread_rows_after_delete (tid : pyval) (d : db) (id : string) :
  truthy tid = true ->
  thread_rows (fst (delete_threads tid d)) id
  = if decide (id = str tid) then [] else thread_rows d id.
Proof.
  intros Htruthy. rewrite delete_threads_run, Htruthy.
  unfold thread_rows. cbn [fst table_rows rows].
  rewrite list_filter_filter. destruct (decide (id = str tid)) as [-> | Hne].
  - apply filter_none, Forall_forall. intros r _. tauto.
  - apply list_filter_iff. intros r. split; [tauto |].
    intros Hid. split; [exact Hid | congruence].
Qed.

(** X9. Deleting a thread that the store does not hold still reports
    success, and keeps every row. *)
Theorem delete_unknown_reports_success (tid : pyval) (d : db) :
  truthy tid = true ->
  ~ known d (str tid) ->
  snd (delete_threads tid d)
  = Ok (true, "Successfully deleted conversation with ID: " +:+ str tid)
  /\ table_rows (fst (delete_threads tid d)) = table_rows d
  /\ (forall t, d = Some t -> fst (delete_threads tid d) = Some t).
Proof.
  intros Htruthy Hunknown. rewrite delete_threads_run, Htruthy.
  assert (Hall : filter (fun r => r_thread_id r <> str tid) (table_rows d)
                 = table_rows d).
  { apply filter_all, Forall_forall. intros r Hr Hid. apply Hunknown.
    unfold known. rewrite <- Hid.
    apply list_elem_of_In, in_map, list_elem_of_In, Hr. }
  cbn [fst snd table_rows rows]. rewrite Hall.
  split; [reflexivity |]. split; [reflexivity |].
  intros t ->. destruct t. reflexivity.
Qed.

Lemma delete_unknown_reports_success_witness :
  delete_threads (PStr "ghost")
    (Some {| columns := Checkpointer.base_columns;
             rows := [ {| r_thread_id := "t1";
                          r_thread_title := None;
                          r_checkpoint := [MObj Human "Hello"] |} ] |})
  = (Some {| columns := Checkpointer.base_columns;
             rows := [ {| r_thread_id := "t1";
                          r_thread_title := None;
                          r_checkpoint := [MObj Human "Hello"] |} ] |},
     Ok (true, "Successfully deleted conversation with ID: ghost")).
Proof.
  destruct (delete_unknown_reports_success (PStr "ghost")
              (Some {| columns := Checkpointer.base_columns;
                       rows := [ {| r_thread_id := "t1";
                                    r_thread_title := None;
                                    r_checkpoint := [MObj Human "Hello"] |} ] |}))
    as (Hmsg & _ & Hstate).
  - reflexivity.
  - unfold known. cbn. intros Hin. apply list_elem_of_singleton in Hin.
    discriminate Hin.
  - rewrite (surjective_pairing (delete_threads _ _)).
    rewrite Hmsg, (Hstate _ eq_refl). reflexivity.
Defined.

(** X10. Deleting one thread keeps every other thread: its rows, the
    conversation that loads for it and, on a table that exists, what the
    lookup reports for it. *)
Theorem delete_threads_frame (dict_str : gmap string string -> string)
        (tid : pyval) (d : db) (id : string) :
  truthy tid = true ->
  id <> str tid ->
  thread_rows (fst (delete_threads tid d)) id = thread_rows d id
  /\ snd (load_conversation (PStr id) (fst (delete_threads tid d)))
     = snd (load_conversation (PStr id) d)
  /\ (forall t, d = Some t ->
        snd (get_thread_by_id dict_str (PStr id) (fst (delete_threads tid d)))
        = snd (get_thread_by_id dict_str (PStr id) d)).
Proof.
  intros Htruthy Hid.
  assert (Hrows : thread_rows (fst (delete_threads tid d)) id = thread_rows d id).
  { rewrite thread_rows_after_delete by exact Htruthy.
    now rewrite decide_False. }
  assert (Hview : thread_view dict_str (fst (delete_threads tid d)) (PStr id)
                  = thread_view dict_str d (PStr id)).
  { unfold thread_view, thread_messages, stored_title. cbn [str].
    now rewrite Hrows. }
  split; [exact Hrows |]. split.
  - rewrite !load_conversation_run. cbn [snd str].
    unfold thread_messages. now rewrite Hrows.
  - intros t ->. rewrite !get_thread_by_id_run, Hview. cbn [snd].
    rewrite delete_threads_run, Htruthy. cbn [fst after_setup].
    unfold thread_title_table. cbn [columns].
    destruct (existsb _ (columns t)); reflexivity.
Qed.

Lemma delete_threads_frame_witness :
  let d := Some {| columns := Checkpointer.base_columns ++ ["thread_title"];
                   rows := [ {| r_thread_id := "t1";
                                r_thread_title := None;
                                r_checkpoint := [MObj Human "Hello"] |};
                             {| r_thread_id := "t2";
                                r_thread_title := Some "Trip";
                                r_checkpoint := [MObj Human "Flights?"] |} ] |} in
  thread_rows (fst (delete_threads (PStr "t1") d)) "t2" = thread_rows d "t2".
Proof.
  intros d.
  apply (delete_threads_frame (fun _ => "") (PStr "t1") d "t2");
    [reflexivity | discriminate].
Defined.

(** X11. Deleting is idempotent on the store: a second delete of the same
    thread, or a second delete of all threads, changes nothing more; the
    second delete of all threads reports that it deleted 0
    conversations. *)
Theorem delete_threads_twice (tid : pyval) (d : db) :
  fst (delete_threads tid (fst (delete_threads tid d)))
  = fst (delete_threads tid d)
  /\ snd (delete_threads PNone (fst (delete_threads PNone d)))
     = Ok (true, "Successfully deleted 0 conversations").
Proof.
  split.
  - rewrite (delete_threads_run tid d).
    destruct (truthy tid) eqn:Htruthy; cbn [fst];
      rewrite delete_threads_run, Htruthy; cbn [fst after_setup table_rows
                                                  columns rows];
      [| reflexivity].
    do 2 f_equal. rewrite list_filter_filter.
    apply list_filter_iff. intros r. tauto.
  - rewrite (delete_threads_run PNone d). cbn [truthy fst].
    rewrite delete_threads_run. reflexivity.
Qed.

Lemma rename_without_row (tid : pyval) (new_title : string) (d : db) :
  (forall r, r ∈ table_rows d -> r_thread_id r <> str tid) ->
  exists message, update_thread_title tid new_title d = (d, Ok (false, message)).
Proof.
  intros Hnone. rewrite update_thread_title_run.
  destruct (thread_title_table d) as [t | e] eqn:Ht; [| eexists; reflexivity].
  pose proof (thread_title_table_some _ _ Ht) as ->.
  destruct (bind_param 2 tid) as [v | e] eqn:Hv; [| eexists; reflexivity].
  assert (Hall : Forall (fun r => thread_id_is v r = false) (rows t)).
  { apply Forall_forall. intros r Hr.
    destruct (thread_id_is v r) eqn:Hm; [| reflexivity].
    exfalso. apply (Hnone r Hr). exact (bind_param_target _ _ _ _ Hv Hm). }
  destruct (retitle_none v new_title _ Hall) as [-> ->].
  destruct t. eexists. reflexivity.
Qed.

(** X12. Once a thread is deleted from a table that has the title column,
    its lookup reports a thread without messages whose title is
    ["New Chat"], and renaming it fails and changes nothing. *)
Theorem deleted_thread_is_new_chat (dict_str : gmap string string -> string)
        (tid : pyval) (new_title : string) (t : table) :
  "thread_title" ∈ columns t ->
  truthy tid = true ->
  let d' := fst (delete_threads tid (Some t)) in
  get_thread_by_id dict_str tid d'
  = (d', Ok {| thread_id := tid; messages := []; thread_title := "New Chat" |})
  /\ exists message,
       update_thread_title tid new_title d' = (d', Ok (false, message)).
Proof.
  intros Hcol Htruthy. cbv zeta.
  assert (Hgone : thread_rows (fst (delete_threads tid (Some t))) (str tid) = []).
  { rewrite thread_rows_after_delete by exact Htruthy. now rewrite decide_True. }
  split.
  - rewrite get_thread_by_id_run.
    assert (Ht : exists t', thread_title_table (fst (delete_threads tid (Some t)))
                            = Ok t').
    { rewrite delete_threads_run, Htruthy. cbn [fst after_setup].
      eexists. apply thread_title_table_same_columns.
      exact (thread_title_table_column t Hcol). }
    destruct Ht as [t' ->].
    unfold thread_view, thread_messages, stored_title. rewrite Hgone.
    reflexivity.
  - apply rename_without_row. intros r Hr Hid.
    assert (Hin : r ∈ thread_rows (fst (delete_threads tid (Some t))) (str tid)).
    { unfold thread_rows. apply list_elem_of_filter. split; assumption. }
    rewrite Hgone in Hin. exact (not_elem_of_nil _ Hin).
Qed.

Lemma deleted_thread_is_new_chat_witness :
  let d := Some {| columns := Checkpointer.base_columns ++ ["thread_title"];
                   rows := [ {| r_thread_id := "t1";
                                r_thread_title := Some "Trip";
                                r_checkpoint := [MObj Human "Flights?"] |} ] |} in
  snd (get_thread_by_id (fun _ => "") (PStr "t1")
         (fst (delete_threads (PStr "t1") d)))
  = Ok {| thread_id := PStr "t1"; messages := []; thread_title := "New Chat" |}.
Proof.
  intros d.
  destruct (deleted_thread_is_new_chat (fun _ => "") (PStr "t1") "Plans"
              {| columns := Checkpointer.base_columns ++ ["thread_title"];
                 rows := [ {| r_thread_id := "t1";
                              r_thread_title := Some "Trip";
                              r_checkpoint := [MObj Human "Flights?"] |} ] |})
    as [Hlookup _].
  - apply existsb_eqb_elem_of. reflexivity.
  - reflexivity.
  - fold d in Hlookup. rewrite Hlookup. reflexivity.
Defined.

(** ** The title column and the listing *)

Section RowMap.

Variable f : row -> row.
Hypothesis f_thread_id : forall r, r_thread_id (f r) = r_thread_id r.
Hypothesis f_checkpoint : forall r, r_checkpoint (f r) = r_checkpoint r.

Lemma filter_map_same_id (id : string) (l : list row) :
  filter (fun r => r_thread_id r = id) (map f l)
  = map f (filter (fun r => r_thread_id r = id) l).
Proof.
  induction l as [| r l IH]; [reflexivity |].
  cbn [map]. rewrite !filter_cons, f_thread_id.
  destruct (decide (r_thread_id r = id)); cbn [map]; now rewrite IH.
Qed.

Lemma thread_messages_map (cols cols' : list string) (l : list row)
      (id : string) :
  thread_messages (Some {| columns := cols'; rows := map f l |}) id
  = thread_messages (Some {| columns := cols; rows := l |}) id.
Proof.
  unfold thread_messages, thread_rows. cbn [table_rows rows].
  rewrite filter_map_same_id, last_map.
  destruct (last _); [apply f_checkpoint | reflexivity].
Qed.

End RowMap.

(** X13. Adding the title column to a table keeps the thread id and the
    saved messages of every row, and makes the titles readable: the
    listing made next holds every known thread with its messages, and when
    the column was just added every title is the one derived from the
    first message. *)
Theorem add_title_column_then_list (dict_str : gmap string string -> string)
        (t : table) :
  let d1 := fst (add_column_to_checkpoints_table "thread_title" "TEXT" (Some t)) in
  map r_thread_id (table_rows d1) = map r_thread_id (rows t)
  /\ map r_checkpoint (table_rows d1) = map r_checkpoint (rows t)
  /\ exists listing,
       retrieve_all_threads dict_str d1 = (d1, Ok listing)
       /\ (forall id, known (Some t) id <-> PStr id ∈ map thread_id listing)
       /\ (forall th, th ∈ listing ->
             exists id, thread_id th = PStr id
                        /\ messages th = thread_messages (Some t) id)
       /\ ("thread_title" ∉ columns t ->
           forall th, th ∈ listing ->
             thread_title th = first_message_title dict_str (messages th)).
Proof.
  cbv zeta. rewrite add_column_run.
  set (clear := fun r => {| r_thread_id := r_thread_id r;
                            r_thread_title := None;
                            r_checkpoint := r_checkpoint r |}).
  assert (Hgen : forall d1 : db,
             (exists t1, d1 = Some t1 /\ thread_title_table d1 = Ok t1) ->
             map r_thread_id (table_rows d1) = map r_thread_id (rows t) ->
             (forall id, thread_messages d1 id = thread_messages (Some t) id) ->
             exists listing,
               retrieve_all_threads dict_str d1 = (d1, Ok listing)
               /\ listing = map (fun id => thread_view dict_str d1 (PStr id))
                                (elements (listed_threads d1))
               /\ (forall id, known (Some t) id
                              <-> PStr id ∈ map thread_id listing)
               /\ (forall th, th ∈ listing ->
                     exists id, thread_id th = PStr id
                                /\ messages th = thread_messages (Some t) id)).
  { intros d1 (t1 & -> & Ht1) Hids Hmsgs. eexists.
    split; [apply retrieve_all_threads_readable; right; eauto |].
    split; [reflexivity |]. split.
    - intros id. rewrite map_map. cbn [thread_view thread_id].
      rewrite list_elem_of_In, in_map_iff. split.
      + intros Hknown. exists id. split; [reflexivity |].
        apply list_elem_of_In, elem_of_elements, elem_of_listed_threads.
        unfold known in *. cbn [table_rows] in *. now rewrite Hids.
      + intros (id' & [= ->] & Hin).
        apply list_elem_of_In, elem_of_elements, elem_of_listed_threads in Hin.
        unfold known in *. cbn [table_rows] in *. now rewrite <- Hids.
    - intros th Hth. apply list_elem_of_In, in_map_iff in Hth.
      destruct Hth as (id & <- & _). exists id.
      split; [reflexivity | apply Hmsgs]. }
  destruct (existsb (String.eqb "thread_title") (columns t)) eqn:Hcol.
  - cbn [fst table_rows]. split; [reflexivity |]. split; [reflexivity |].
    destruct (Hgen (Some t)) as (listing & Hrun & _ & Hids & Hmsgs).
    + exists t. split; [reflexivity |].
      unfold thread_title_table. now rewrite Hcol.
    + reflexivity.
    + reflexivity.
    + exists listing. repeat split; try assumption; try apply Hids.
      intros Hnot. exfalso. apply Hnot. now apply existsb_eqb_elem_of.
  - cbn [fst table_rows rows String.eqb Ascii.eqb Bool.eqb]. fold clear.
    assert (Hids : map r_thread_id (map clear (rows t)) = map r_thread_id (rows t))
      by (rewrite map_map; reflexivity).
    split; [exact Hids |].
    split; [rewrite map_map; reflexivity |].
    destruct (Hgen (Some {| columns := columns t ++ ["thread_title"];
                            rows := map clear (rows t) |}))
      as (listing & Hrun & Hlist & Hknown & Hmsgs).
    + eexists. split; [reflexivity |].
      unfold thread_title_table. cbn [columns].
      rewrite existsb_app. cbn [existsb String.eqb Ascii.eqb Bool.eqb].
      now rewrite orb_true_r.
    + exact Hids.
    + intros id. destruct t as [cols rws].
      apply (thread_messages_map clear); reflexivity.
    + exists listing. repeat split; try assumption; try apply Hknown.
      intros _ th Hth. rewrite Hlist in Hth.
      apply list_elem_of_In, in_map_iff in Hth.
      destruct Hth as (id & <- & _).
      unfold thread_view, stored_title, thread_rows.
      cbn [thread_title messages table_rows rows str].
      rewrite (filter_map_same_id clear) by reflexivity.
      destruct (filter _ (rows t)); reflexivity.
Qed.

(** ** The session of the frontend *)

(** X14. [add_thread] keeps the thread ids of the sidebar distinct: a
    thread whose id is already there is not added and does not replace
    the entry, a new one goes to the end, and adding the same thread twice
    is adding it once. *)
Theorem add_thread_keeps_ids_distinct (th : thread) (ss : session_state) :
  (NoDup (map thread_id (chat_threads ss)) ->
   NoDup (map thread_id (chat_threads (add_thread th ss))))
  /\ (thread_id th ∈ map thread_id (chat_threads ss) -> add_thread th ss = ss)
  /\ (thread_id th ∉ map thread_id (chat_threads ss) ->
      chat_threads (add_thread th ss) = (chat_threads ss ++ [th])%list)
  /\ thread_id th ∈ map thread_id (chat_threads (add_thread th ss))
  /\ add_thread th (add_thread th ss) = add_thread th ss.
Proof.
  assert (Hin : thread_id th ∈ map thread_id (chat_threads (add_thread th ss))).
  { unfold add_thread.
    destruct (decide (thread_id th ∈ map thread_id (chat_threads ss)));
      [assumption |].
    cbn [chat_threads]. rewrite map_app. apply elem_of_app. right. left. }
  split; [| split; [| split; [| split]]].
  - intros Hnodup. unfold add_thread.
    destruct (decide (thread_id th ∈ map thread_id (chat_threads ss)))
      as [Hold | Hnew]; [exact Hnodup |].
    cbn [chat_threads]. rewrite map_app. apply NoDup_app.
    split; [exact Hnodup |]. split; [| apply NoDup_singleton].
    intros x Hx Hx'. apply list_elem_of_singleton in Hx'. now subst x.
  - intros Hold. unfold add_thread. now rewrite decide_True.
  - intros Hnew. unfold add_thread. now rewrite decide_False.
  - exact Hin.
  - unfold add_thread at 1. now rewrite decide_True.
Qed.

Lemma add_thread_keeps_ids_distinct_witness :
  let th := {| thread_id := PStr "t1"; messages := []; thread_title := "Other" |} in
  let ss := {| message_history := [];
               active_thread_id := PStr "t1";
               chat_threads := [ {| thread_id := PStr "t1";
                                    messages := [];
                                    thread_title := "Trip" |} ] |} in
  add_thread th ss = ss.
Proof.
  intros th ss.
  destruct (add_thread_keeps_ids_distinct th ss) as (_ & Hold & _).
  apply Hold. left.
Defined.

(** X15. Every entry that [convert_to_frontend_format] returns has the
    keys ["role"] and ["content"] that the chat loop reads; there are no
    more entries than messages; every message object is shown with its
    content, as ["user"] when it is a human message and as ["assistant"]
    otherwise (a tool message too); and converting the entries again gives
    them back. *)
Theorem convert_to_frontend_format_shape (l : list message) :
  Forall (fun m : gmap string string =>
            is_Some (m !! "role") /\ is_Some (m !! "content"))
         (convert_to_frontend_format l)
  /\ length (convert_to_frontend_format l) <= length l
  /\ (forall kind content,
        MObj kind content ∈ l ->
        {[ "role" := match kind with Human => "user" | _ => "assistant" end;
           "content" := content ]} ∈ convert_to_frontend_format l)
  /\ convert_to_frontend_format (map MDict (convert_to_frontend_format l))
     = convert_to_frontend_format l.
Proof.
  induction l as [| msg l (IHkeys & IHlen & IHobj & IHagain)].
  { repeat split; try constructor. intros kind content Hin.
    exfalso. exact (not_elem_of_nil _ Hin). }
  destruct msg as [kind content | d | s]; cbn [convert_to_frontend_format].
  - split; [| split; [| split]].
    + constructor; [| exact IHkeys].
      split; eexists; [apply lookup_insert_eq |].
      rewrite lookup_insert_ne by discriminate. apply lookup_singleton_eq.
    + cbn [length]. lia.
    + intros kind' content' Hin. apply elem_of_cons in Hin.
      destruct Hin as [[= -> ->] | Hin]; [left | right; now apply IHobj].
    + cbn [map convert_to_frontend_format].
      rewrite lookup_insert_eq, lookup_insert_ne by discriminate.
      rewrite lookup_singleton_eq, IHagain. reflexivity.
  - destruct (d !! "role") as [role |] eqn:Hrole;
      [destruct (d !! "content") as [content |] eqn:Hcontent |].
    + split; [| split; [| split]].
      * constructor; [| exact IHkeys]. rewrite Hrole, Hcontent. eauto.
      * cbn [length]. lia.
      * intros kind' content' Hin. apply elem_of_cons in Hin.
        destruct Hin as [[=] | Hin]. right. now apply IHobj.
      * cbn [map convert_to_frontend_format].
        rewrite Hrole, Hcontent, IHagain. reflexivity.
    + split; [exact IHkeys |]. split; [cbn [length]; lia |].
      split; [| exact IHagain].
      intros kind' content' Hin. apply elem_of_cons in Hin.
      destruct Hin as [[=] | Hin]. now apply IHobj.
    + split; [exact IHkeys |]. split; [cbn [length]; lia |].
      split; [| exact IHagain].
      intros kind' content' Hin. apply elem_of_cons in Hin.
      destruct Hin as [[=] | Hin]. now apply IHobj.
  - split; [exact IHkeys |]. split; [cbn [length]; lia |].
    split; [| exact IHagain].
    intros kind' content' Hin. apply elem_of_cons in Hin.
    destruct Hin as [[=] | Hin]. now apply IHobj.
Qed.

(** The rename of [reset_chat] cannot reach a row: the thread id is a
    [UUID] object, which no [?] accepts. *)
Lemma update_thread_title_uuid (text new_title : string) (d : db) :
  exists message,
    update_thread_title (PUuid text) new_title d = (d, Ok (false, message)).
Proof.
  rewrite update_thread_title_run.
  destruct (thread_title_table d); eexists; reflexivity.
Qed.

Lemma reset_chat_run (fresh : string) (ss : session_state) (d : db) :
  reset_chat fresh ss d
  = (d, Ok {| message_history := [];
              active_thread_id := PUuid fresh;
              chat_threads :=
                chat_threads
                  (add_thread {| thread_id := PUuid fresh;
                                 messages := [];
                                 thread_title := "New Chat" |}
                     {| message_history := message_history ss;
                        active_thread_id := PUuid fresh;
                        chat_threads := chat_threads ss |}) |}).
Proof.
  unfold reset_chat, bind.
  destruct (update_thread_title_uuid fresh "New Chat" d) as [message ->].
  unfold ret. do 3 f_equal.
  unfold add_thread. cbn [thread_id chat_threads].
  destruct (decide _); reflexivity.
Qed.

(** X16. [reset_chat] never changes the store: the ["New Chat"] title is
    not written. In the session it makes the new id the active one,
    empties the history, keeps the threads of the sidebar and adds, when
    the id is not yet there, one thread without messages titled
    ["New Chat"]. *)
Theorem reset_chat_effect (fresh : string) (ss : session_state) (d : db) :
  exists ss',
    reset_chat fresh ss d = (d, Ok ss')
    /\ active_thread_id ss' = PUuid fresh
    /\ message_history ss' = []
    /\ (PUuid fresh ∈ map thread_id (chat_threads ss) ->
        chat_threads ss' = chat_threads ss)
    /\ (PUuid fresh ∉ map thread_id (chat_threads ss) ->
        chat_threads ss'
        = (chat_threads ss ++ [ {| thread_id := PUuid fresh;
                                   messages := [];
                                   thread_title := "New Chat" |} ])%list).
Proof.
  eexists. split; [apply reset_chat_run |].
  cbn [active_thread_id message_history chat_threads].
  split; [reflexivity |]. split; [reflexivity |].
  unfold add_thread. cbn [thread_id chat_threads].
  split; intros Hin.
  - now rewrite decide_True.
  - now rewrite decide_False.
Qed.

(** X17. The button that deletes all chats leaves no row in the store, and
    a session whose history is empty and whose sidebar holds one thread:
    the new active one, without messages, titled ["New Chat"]. *)
Theorem delete_all_button_effect (fresh : string) (ss : session_state)
        (d : db) :
  delete_all_button fresh ss d
  = (Some {| columns := columns (after_setup d); rows := [] |},
     Ok {| message_history := [];
           active_thread_id := PUuid fresh;
           chat_threads := [ {| thread_id := PUuid fresh;
                                messages := [];
                                thread_title := "New Chat" |} ] |}).
Proof.
  unfold delete_all_button, bind. rewrite delete_threads_run.
  cbn [truthy fst]. rewrite reset_chat_run. reflexivity.
Qed.

(** X18. When the table has rows but no title column, the sidebar holds
    the error entry alone, and the delete button of that entry deletes
    every thread of the store: its thread id is [None]. *)
Theorem delete_button_on_error_entry (dict_str : gmap string string -> string)
        (t : table) (ss : session_state) :
  "thread_title" ∉ columns t ->
  rows t <> [] ->
  exists entry,
    update_sidebar_threads dict_str ss (Some t)
    = (Some t, Ok {| message_history := message_history ss;
                     active_thread_id := active_thread_id ss;
                     chat_threads := [entry] |})
    /\ thread_id entry = PNone
    /\ delete_button dict_str entry ss (Some t)
       = (Some {| columns := columns t; rows := [] |},
          Ok {| message_history := message_history ss;
                active_thread_id := active_thread_id ss;
                chat_threads := [] |}).
Proof.
  intros Hcol Hrows. eexists. split; [| split].
  - unfold update_sidebar_threads, bind.
    rewrite (retrieve_all_threads_error_entry dict_str t Hcol Hrows).
    reflexivity.
  - reflexivity.
  - unfold delete_button, bind. cbn [thread_id].
    rewrite delete_threads_run. cbn [truthy after_setup].
    rewrite retrieve_all_threads_run. reflexivity.
Qed.

Lemma delete_button_on_error_entry_witness :
  let t := {| columns := Checkpointer.base_columns;
              rows := [ {| r_thread_id := "t1";
                           r_thread_title := None;
                           r_checkpoint := [MObj Human "Hello"] |};
                        {| r_thread_id := "t2";
                           r_thread_title := None;
                           r_checkpoint := [MObj Human "Flights?"] |} ] |} in
  let ss := {| message_history := [];
               active_thread_id := PStr "t1";
               chat_threads := [] |} in
  exists entry,
    snd (update_sidebar_threads (fun _ => "") ss (Some t))
    = Ok {| message_history := [];
            active_thread_id := PStr "t1";
            chat_threads := [entry] |}
    /\ table_rows (fst (delete_button (fun _ => "") entry ss (Some t))) = [].
Proof.
  intros t ss.
  destruct (delete_button_on_error_entry (fun _ => "") t ss)
    as (entry & Hside & _ & Hdelete).
  - intros Hin. apply existsb_eqb_elem_of in Hin.
    vm_compute in Hin. discriminate Hin.
  - discriminate.
  - exists entry. rewrite Hside, Hdelete. split; reflexivity.
Defined.

Lemma retrieve_all_threads_total (dict_str : gmap string string -> string)
      (d : db) :
  exists listing,
    retrieve_all_threads dict_str d = (Some (after_setup d), Ok listing).
Proof. rewrite retrieve_all_threads_run. eexists. reflexivity. Qed.

(** X19. The start of a script run. A first run (no session yet) lists
    the stored threads: the sidebar is what [retrieve_all_threads] returns
    on the store, so that on a store whose titles can be read it holds
    every known thread; the active id is the drawn one and the history is
    empty. A later run keeps a session that has threads, and the store.
    In both cases a sidebar that would be empty gets the one new chat of
    [reset_chat], so the sidebar is never empty. *)
Theorem session_init_has_chat (dict_str : gmap string string -> string)
        (fresh1 fresh2 : string) (ss : option session_state) (d : db) :
  let new_chat :=
    {| message_history := [];
       active_thread_id := PUuid fresh2;
       chat_threads := [ {| thread_id := PUuid fresh2;
                            messages := [];
                            thread_title := "New Chat" |} ] |} in
  exists d' ss',
    session_init dict_str fresh1 fresh2 ss d = (d', Ok ss')
    /\ chat_threads ss' <> []
    /\ (ss = None ->
        exists listing,
          retrieve_all_threads dict_str d = (d', Ok listing)
          /\ (listing <> [] ->
              ss' = {| message_history := [];
                       active_thread_id := PUuid fresh1;
                       chat_threads := listing |})
          /\ (listing = [] -> ss' = new_chat)
          /\ (titles_readable d ->
              forall id, known d id ->
                         PStr id ∈ map thread_id (chat_threads ss')))
    /\ (forall ss0, ss = Some ss0 ->
          d' = d
          /\ (chat_threads ss0 <> [] -> ss' = ss0)
          /\ (chat_threads ss0 = [] -> ss' = new_chat)).
Proof.
  cbv zeta. unfold session_init. destruct ss as [ss0 |].
  - unfold bind at 1. unfold ret at 1.
    destruct (chat_threads ss0) as [| th ths] eqn:Hthreads.
    + rewrite reset_chat_run. do 2 eexists. split; [reflexivity |].
      cbn [chat_threads]. unfold add_thread. cbn [thread_id chat_threads].
      rewrite Hthreads. cbn [map]. rewrite decide_False by apply not_elem_of_nil.
      cbn [chat_threads app]. split; [discriminate |].
      split; [discriminate |].
      intros ss1 [= <-]. split; [reflexivity |].
      split; [congruence | reflexivity].
    + do 2 eexists. split; [reflexivity |]. rewrite Hthreads.
      split; [discriminate |]. split; [discriminate |].
      intros ss1 [= <-]. split; [reflexivity |].
      split; [reflexivity | congruence].
  - destruct (retrieve_all_threads_total dict_str d) as [l Hl].
    assert (Hknown : titles_readable d ->
                     forall id, known d id -> PStr id ∈ map thread_id l).
    { intros Hread id Hid.
      rewrite (retrieve_all_threads_readable dict_str d Hread) in Hl.
      injection Hl as <-. rewrite map_map. cbn [thread_view thread_id].
      apply list_elem_of_In, in_map, list_elem_of_In.
      apply elem_of_elements, elem_of_listed_threads, Hid. }
    unfold bind at 1. unfold bind at 1. rewrite Hl. unfold ret at 1.
    cbn [chat_threads]. destruct l as [| th ths].
    + rewrite reset_chat_run. do 2 eexists. split; [reflexivity |].
      cbn [chat_threads]. unfold add_thread. cbn [thread_id chat_threads map].
      rewrite decide_False by apply not_elem_of_nil.
      cbn [chat_threads app]. split; [discriminate |].
      split; [| discriminate].
      intros _. exists []. split; [reflexivity |].
      split; [congruence |]. split; [reflexivity |].
      intros Hread id Hid. exfalso.
      exact (not_elem_of_nil _ (Hknown Hread id Hid)).
    + do 2 eexists. split; [reflexivity |]. cbn [chat_threads].
      split; [discriminate |]. split; [| discriminate].
      intros _. exists (th :: ths). split; [reflexivity |].
      split; [reflexivity |]. split; [discriminate |].
      exact Hknown.
Qed.

(** ** Thread ids that are UUID objects *)

(** X20. For a thread id that is a [UUID] object, as the session holds
    until a stored thread is opened, the title step never changes the
    store: the rename it may attempt cannot bind the id. *)
Theorem title_step_uuid (dict_str : gmap string string -> string)
        (text user_input : string) (d : db) :
  fst (title_step dict_str (PUuid text) user_input d) = d
  /\ (snd (title_step dict_str (PUuid text) user_input d) = Ok None
      \/ snd (title_step dict_str (PUuid text) user_input d)
         = Ok (Some (auto_title user_input))).
Proof.
  destruct (title_step_run dict_str user_input (PUuid text) d)
    as (th & _ & Hnew & Hold).
  destruct (update_thread_title_uuid text (auto_title user_input) d)
    as [message Hup].
  destruct (String.eqb_spec (thread_title th) "New Chat") as [Heq | Hne].
  - rewrite (Hnew Heq), Hup. split; [reflexivity | right; reflexivity].
  - rewrite (Hold Hne). split; [reflexivity | left; reflexivity].
Qed.

(** X21. The save button of the rename box changes neither the store nor
    the session when the entry's thread id is a [UUID] object (an entry
    that [reset_chat] made) or has no row in the store. *)
Theorem save_button_without_effect (dict_str : gmap string string -> string)
        (entry : thread) (new_name : string) (ss : session_state) (d : db) :
  (exists text, thread_id entry = PUuid text)
  \/ ~ known d (str (thread_id entry)) ->
  save_button dict_str entry new_name ss d = (d, Ok ss).
Proof.
  intros Hcase.
  assert (Hfail : exists message,
             update_thread_title (thread_id entry) new_name d
             = (d, Ok (false, message))).
  { destruct Hcase as [[text ->] | Hunknown].
    - apply update_thread_title_uuid.
    - apply rename_without_row. intros r Hr Hid. apply Hunknown.
      unfold known. rewrite <- Hid.
      apply list_elem_of_In, in_map, list_elem_of_In, Hr. }
  destruct Hfail as [message Hfail].
  unfold save_button, bind. rewrite Hfail. reflexivity.
Qed.

Lemma save_button_without_effect_witness :
  let entry := {| thread_id := PUuid "6f1c";
                  messages := [];
                  thread_title := "New Chat" |} in
  let ss := {| message_history := [];
               active_thread_id := PUuid "6f1c";
               chat_threads := [entry] |} in
  let d := Some {| columns := Checkpointer.base_columns ++ ["thread_title"];
                   rows := [ {| r_thread_id := "6f1c";
                                r_thread_title := None;
                                r_checkpoint := [MObj Human "Hello"] |} ] |} in
  save_button (fun _ => "") entry "Greetings" ss d = (d, Ok ss).
Proof.
  intros entry ss d.
  apply (save_button_without_effect (fun _ => "") entry "Greetings" ss d).
  left. exists "6f1c". reflexivity.
Defined.

(** ** The title step, on the store *)

(** C3. The automatic title of a text is its first 20 characters followed
    by ["..."] when the text is longer than 20 characters, and the text
    itself otherwise. The title step applies it only when the thread's
    current title is exactly ["New Chat"], where the current title is read
    off the store: the title cell of the thread's oldest row when it is
    there and not empty, else the title of its first message, else
    ["New Chat"]. With any other current title, or while the title column
    is missing, the step leaves the store as it is, so a stored title such
    as a name given by the user is never overwritten; with the current
    title ["New Chat"] the step writes the automatic title of the input
    into every row of the thread, and the thread's stored title is then
    that title. *)
Theorem auto_title_rule (dict_str : gmap string string -> string)
        (s : string) (tid : pyval) (d : db) :
  (20 < String.length s ->
   auto_title s = slice_to 20 s +:+ "..."
   /\ String.length (slice_to 20 s) = 20
   /\ s = slice_to 20 s +:+ slice_from 20 s)
  /\ (String.length s <= 20 -> auto_title s = s)
  /\ (forall t,
        d = Some t ->
        "thread_title" ∈ columns t ->
        let current :=
          resolved_title dict_str (stored_title d (str tid))
                         (thread_messages d (str tid)) in
        get_thread_by_id dict_str tid d
        = (d, Ok {| thread_id := tid;
                    messages := thread_messages d (str tid);
                    thread_title := current |})
        /\ (current <> "New Chat" ->
            title_step dict_str tid s d = (d, Ok None))
        /\ (current = "New Chat" ->
            title_step dict_str tid s d
            = (match bind_param 2 tid with
               | Ok v =>
                   Some {| columns := columns t;
                           rows := map (retitle v (auto_title s)) (rows t) |}
               | Raise _ => d
               end,
               Ok (Some (auto_title s)))))
  /\ ((forall t, d = Some t -> "thread_title" ∉ columns t) ->
      title_step dict_str tid s d = (d, Ok None))
  /\ (forall title,
        stored_title d (str tid) = Some title ->
        title <> "" ->
        title <> "New Chat" ->
        title_step dict_str tid s d = (d, Ok None))
  /\ (forall t id,
        d = Some t ->
        "thread_title" ∈ columns t ->
        tid = PStr id ->
        known d id ->
        resolved_title dict_str (stored_title d id) (thread_messages d id)
        = "New Chat" ->
        stored_title (fst (title_step dict_str tid s d)) id
        = Some (auto_title s)).
Proof.
  assert (Hkeep : forall th,
             get_thread_by_id dict_str tid d = (d, Ok th) ->
             thread_title th <> "New Chat" ->
             title_step dict_str tid s d = (d, Ok None)).
  { intros th Hth Hne. unfold title_step, bind at 1. rewrite Hth.
    apply String.eqb_neq in Hne. now rewrite Hne. }
  assert (Hwrite : forall t,
             d = Some t ->
             "thread_title" ∈ columns t ->
             resolved_title dict_str (stored_title d (str tid))
                            (thread_messages d (str tid)) = "New Chat" ->
             title_step dict_str tid s d
             = (match bind_param 2 tid with
                | Ok v =>
                    Some {| columns := columns t;
                            rows := map (retitle v (auto_title s)) (rows t) |}
                | Raise _ => d
                end,
                Ok (Some (auto_title s)))).
  { intros t -> Hcol Hcur.
    pose proof (thread_title_table_column t Hcol) as Ht.
    unfold title_step, bind at 1. rewrite get_thread_by_id_run, Ht.
    unfold thread_view. cbn [thread_title]. rewrite Hcur.
    cbn [String.eqb Ascii.eqb Bool.eqb].
    unfold bind. rewrite update_thread_title_run, Ht.
    destruct (bind_param 2 tid) as [v | e]; reflexivity. }
  split; [| split; [| split; [| split; [| split]]]].
  - intros Hlen. unfold auto_title.
    destruct (Nat.ltb_spec 20 (String.length s)) as [_ | Hle]; [| lia].
    split; [reflexivity |]. split.
    + apply length_slice_to. lia.
    + symmetry. apply slice_to_slice_from.
  - intros Hlen. unfold auto_title.
    destruct (Nat.ltb_spec 20 (String.length s)) as [Hlt | _]; [lia | reflexivity].
  - intros t Hd Hcol. cbv zeta.
    assert (Hlook : get_thread_by_id dict_str tid d
                    = (d, Ok {| thread_id := tid;
                                messages := thread_messages d (str tid);
                                thread_title :=
                                  resolved_title dict_str
                                    (stored_title d (str tid))
                                    (thread_messages d (str tid)) |})).
    { rewrite get_thread_by_id_run. subst d.
      now rewrite (thread_title_table_column t Hcol). }
    split; [exact Hlook |]. split.
    + intros Hne. exact (Hkeep _ Hlook Hne).
    + intros Hcur. exact (Hwrite t Hd Hcol Hcur).
  - intros Hcol.
    pose proof (thread_title_table_unreadable d Hcol) as Ht.
    eapply Hkeep.
    + rewrite get_thread_by_id_run, Ht. reflexivity.
    + cbn [thread_title]. intros Heq. discriminate Heq.
  - intros title Hstored Hne Hdef.
    destruct (thread_title_table d) as [t | e] eqn:Ht.
    + apply (Hkeep (thread_view dict_str d tid)).
      * now rewrite get_thread_by_id_run, Ht.
      * unfold thread_view. cbn [thread_title]. rewrite Hstored.
        cbn [resolved_title]. apply String.eqb_neq in Hne. now rewrite Hne.
    + apply (Hkeep {| thread_id := tid;
                      messages := [];
                      thread_title := "Error: " +:+ str_exn e |}).
      * now rewrite get_thread_by_id_run, Ht.
      * cbn [thread_title]. intros Heq. discriminate Heq.
  - intros t id Hd Hcol -> Hknown Hcur.
    rewrite (Hwrite t Hd Hcol Hcur). subst d. cbn [bind_param fst].
    pose proof (known_thread_rows _ _ Hknown) as Hrows.
    unfold thread_rows in Hrows. cbn [table_rows] in Hrows.
    rewrite <- filter_thread_id_is_text in Hrows.
    exact (retitle_stored_title (SqlText id) (auto_title s) t (PStr id)
             eq_refl Hrows).
Qed.

Lemma auto_title_rule_witness :
  let named :=
    Some {| columns := Checkpointer.base_columns ++ ["thread_title"];
            rows := [ {| r_thread_id := "t1";
                         r_thread_title := Some "Plans";
                         r_checkpoint := [MObj Human "Hi"] |} ] |} in
  let fresh :=
    Some {| columns := Checkpointer.base_columns ++ ["thread_title"];
            rows := [ {| r_thread_id := "t1";
                         r_thread_title := Some "New Chat";
                         r_checkpoint := [] |} ] |} in
  auto_title "Hello there, how are you doing today?" = "Hello there, how are..."
  /\ auto_title "Hi" = "Hi"
  /\ title_step (fun _ => "") (PStr "t1")
       "Hello there, how are you doing today?" named
     = (named, Ok None)
  /\ stored_title
       (fst (title_step (fun _ => "") (PStr "t1")
               "Hello there, how are you doing today?" fresh)) "t1"
     = Some "Hello there, how are...".
Proof.
  intros named fresh.
  destruct (auto_title_rule (fun _ => "")
              "Hello there, how are you doing today?" (PStr "t1") named)
    as (Hlong & _ & _ & _ & Hkeep & _).
  destruct (auto_title_rule (fun _ => "") "Hi" (PStr "t1") named)
    as (_ & Hshort & _).
  destruct (auto_title_rule (fun _ => "")
              "Hello there, how are you doing today?" (PStr "t1") fresh)
    as (_ & _ & _ & _ & _ & Hwrite).
  split; [| split; [| split]].
  - destruct Hlong as [-> _]; [simpl; lia | reflexivity].
  - apply Hshort. simpl. lia.
  - apply (Hkeep "Plans"); [reflexivity | discriminate | discriminate].
  - rewrite (Hwrite _ "t1" eq_refl); [reflexivity | | reflexivity | |].
    + apply existsb_eqb_elem_of. reflexivity.
    + unfold known. cbn. left.
    + reflexivity.
Defined.
